(** * The workflow scripts of test-codeql: push-workflow.js, trigger-codeql.js
      and workflow-manager.js

    A shallow embedding of the three Node.js scripts and the properties of
    their API-interaction layer.

    - [JS] models the JavaScript values the scripts handle (JSON-shaped
      data, property reads, truthiness, [toString], [JSON.stringify]) and
      what a script can throw.
    - [Node] models the calls a script makes to the outside (the [https]
      request, the file system, the two Octokit endpoints) as a small
      interaction monad that is run against a [world].
    - [PushWorkflow], [TriggerCodeql] and [WorkflowManager] are the three
      scripts, function by function.
    - [Fixtures] holds the worlds and inputs of the closed examples.

    Strings.  A JavaScript string is represented by its UTF-8 encoding, one
    [ascii] per byte, so that [Buffer.byteLength s] is [String.length s] and
    the JavaScript [s.length] (UTF-16 code units) is [utf16_length s].  Only
    well-formed strings (no lone surrogates) have a representation.

    Numbers.  [VNum n] is the integral number [n]; HTTP status codes are
    naturals ([N]).  Decimal printing coincides with JavaScript's for
    integers below 10^21.

    Console output is not modelled, but the conversions to a string that
    a printed template literal makes are, since they can throw. *)

From Stdlib Require Import String Ascii List ZArith NArith Lia Bool.
From Stdlib Require Import Decimal DecimalString DecimalN.
Import ListNotations.
Local Open Scope string_scope.
Set Warnings "-register-all".

(* ================================================================== *)
(** * JavaScript values *)
(* ================================================================== *)

Module JS.

(** JSON-shaped values plus [undefined].  [VObj fields] lists the own
    properties of a plain object in enumeration order, with distinct keys. *)
Inductive value : Type :=
| VUndefined
| VNull
| VBool (b : bool)
| VNum (n : Z)
| VStr (s : string)
| VArr (items : list value)
| VObj (fields : list (string * value)).

(** What a [throw] can carry in these scripts. *)
Inductive thrown : Type :=
| Error (message : string)
    (* new Error(message): no status property *)
| TypeError_read (target : value) (prop : string)
    (* reading [prop] of undefined or null *)
| TypeError_call (prop : string)
    (* target.prop(...) where target.prop is not a function *)
| TypeError_primitive
    (* an object that cannot be converted to a primitive *)
| TypeError_argument (name : string)
    (* a built-in called with an argument of the wrong type *)
| RequestError (status : N) (message : string)
    (* the error Octokit raises for a failed request; it has a status *)
| SystemError (code : string).
    (* what the 'error' event of a request or a failing fs call carries *)

(** A settled promise, or the outcome of a [try] block. *)
Inductive result (A : Type) : Type :=
| Ok (a : A)
| Throw (e : thrown).
Arguments Ok {A} a.
Arguments Throw {A} e.

Definition bind {A B} (r : result A) (k : A -> result B) : result B :=
  match r with
  | Ok a => k a
  | Throw e => Throw e
  end.

Notation "x <- r ;; k" := (bind r (fun x => k))
  (at level 61, r at next level, right associativity).

(** [error.status]: only Octokit's request error has one. *)
Definition status_of (e : thrown) : option N :=
  match e with
  | RequestError s _ => Some s
  | _ => None
  end.

(** ** Strings *)

Definition dquote : ascii := "034"%char.
Definition backslash : ascii := "092"%char.

(** Number of UTF-16 code units of a string given by its UTF-8 bytes: a
    continuation byte adds none, the lead byte of a four-byte sequence adds
    two (a surrogate pair), every other lead byte one. *)
Definition utf16_units (c : ascii) : nat :=
  let n := N_of_ascii c in
  if (n <? 128)%N then 1
  else if (n <? 192)%N then 0
  else if (n <? 240)%N then 1
  else 2.

Fixpoint utf16_length (s : string) : nat :=
  match s with
  | EmptyString => 0
  | String c r => utf16_units c + utf16_length r
  end.

(** [Buffer.byteLength(s)] with the default utf8 encoding. *)
Definition byteLength (s : string) : nat := String.length s.

Definition string_of_N (n : N) : string :=
  NilEmpty.string_of_uint (N.to_uint n).

Definition string_of_Z (n : Z) : string :=
  NilEmpty.string_of_int (Z.to_int n).

Definition string_of_bool (b : bool) : string :=
  if b then "true" else "false".

(** Texts of the seven-bit characters only. *)
Fixpoint all_ascii (s : string) : bool :=
  match s with
  | EmptyString => true
  | String c r => (N_of_ascii c <? 128)%N && all_ascii r
  end.

(** A text between two quotes, as it is. *)
Definition in_quotes (s : string) : string :=
  String dquote (s ++ String dquote "").

Fixpoint join (sep : string) (l : list string) : string :=
  match l with
  | [] => ""
  | [x] => x
  | x :: r => x ++ sep ++ join sep r
  end.

(** ** Truthiness, property reads and writes *)

Definition truthy (v : value) : bool :=
  match v with
  | VUndefined | VNull => false
  | VBool b => b
  | VNum n => negb (n =? 0)%Z
  | VStr s => negb (s =? "")
  | VArr _ | VObj _ => true
  end.

Fixpoint getField (fields : list (string * value)) (k : string)
  : option value :=
  match fields with
  | [] => None
  | (k', v) :: r => if k' =? k then Some v else getField r k
  end.

Definition hasOwn (v : value) (k : string) : bool :=
  match v with
  | VObj fields =>
      match getField fields k with Some _ => true | None => false end
  | _ => false
  end.

(** [v.k] for a property name [k] that is neither an array index nor an
    inherited method (the scripts read sha, data, workflows, length, state,
    name, path, id, commit, html_url and the four option names). *)
Definition getProp (v : value) (k : string) : result value :=
  match v with
  | VUndefined | VNull => Throw (TypeError_read v k)
  | VObj fields =>
      Ok (match getField fields k with Some x => x | None => VUndefined end)
  | VStr s =>
      Ok (if k =? "length" then VNum (Z.of_nat (utf16_length s))
          else VUndefined)
  | VArr items =>
      Ok (if k =? "length" then VNum (Z.of_nat (List.length items))
          else VUndefined)
  | VBool _ | VNum _ => Ok VUndefined
  end.

(** [obj.k = x] on a plain object: an existing property keeps its place,
    a new one goes last. *)
Fixpoint setField (fields : list (string * value)) (k : string) (x : value)
  : list (string * value) :=
  match fields with
  | [] => [(k, x)]
  | (k', v) :: r =>
      if k' =? k then (k, x) :: r else (k', v) :: setField r k x
  end.

Definition setProp (v : value) (k : string) (x : value) : value :=
  match v with
  | VObj fields => VObj (setField fields k x)
  | _ => v
  end.

(** A destructuring default, [{ k = d } = options]: the default is taken
    exactly when the property reads as undefined. *)
Definition withDefault (x d : value) : value :=
  match x with
  | VUndefined => d
  | _ => x
  end.

(** ** Conversion to string *)

(** The abstract ToString operation on a value.  A plain object prints as
    [[object Object]] through the inherited method; when an own property
    shadows that method (no value of this model is callable) the conversion
    fails.  An array prints its elements separated by commas, undefined and
    null as nothing. *)
Fixpoint ToString (v : value) : result string :=
  match v with
  | VUndefined => Ok "undefined"
  | VNull => Ok "null"
  | VBool b => Ok (string_of_bool b)
  | VNum n => Ok (string_of_Z n)
  | VStr s => Ok s
  | VArr items =>
      (fix elems (l : list value) : result string :=
         match l with
         | [] => Ok ""
         | x :: r =>
             sx <- match x with
                   | VUndefined | VNull => Ok ""
                   | _ => ToString x
                   end ;;
             match r with
             | [] => Ok sx
             | _ => sr <- elems r ;; Ok (sx ++ "," ++ sr)
             end
         end) items
  | VObj fields =>
      match getField fields "toString" with
      | Some _ => Throw TypeError_primitive
      | None => Ok "[object Object]"
      end
  end.

(** The method call [v.toString()]. *)
Definition toString (v : value) : result string :=
  match v with
  | VUndefined | VNull => Throw (TypeError_read v "toString")
  | VObj fields =>
      match getField fields "toString" with
      | Some _ => Throw (TypeError_call "toString")
      | None => Ok "[object Object]"
      end
  | _ => ToString v
  end.

(** ** JSON.stringify *)

Definition hex_digit (n : N) : ascii :=
  ascii_of_N (if (n <? 10)%N then 48 + n else 87 + n).

(** The escape of one byte inside a JSON string: the quote, the backslash
    and the control characters below U+0020; bytes of multi-byte sequences
    pass unchanged. *)
Definition escape (c : ascii) : string :=
  let n := N_of_ascii c in
  if (n =? 34)%N then String backslash (String dquote "")
  else if (n =? 92)%N then String backslash (String backslash "")
  else if (n =? 8)%N then String backslash "b"
  else if (n =? 9)%N then String backslash "t"
  else if (n =? 10)%N then String backslash "n"
  else if (n =? 12)%N then String backslash "f"
  else if (n =? 13)%N then String backslash "r"
  else if (n <? 32)%N then
    String backslash
      ("u00" ++ String (hex_digit (n / 16)) (String (hex_digit (n mod 16)) ""))
  else String c "".

Fixpoint escape_all (s : string) : string :=
  match s with
  | EmptyString => ""
  | String c r => escape c ++ escape_all r
  end.

Definition quote (s : string) : string :=
  String dquote (escape_all s ++ String dquote "").

(** [JSON.stringify(v)]; [None] is the result undefined.  A property whose
    value is undefined is left out, an undefined array element prints as
    null. *)
Fixpoint JSON_stringify (v : value) : option string :=
  match v with
  | VUndefined => None
  | VNull => Some "null"
  | VBool b => Some (string_of_bool b)
  | VNum n => Some (string_of_Z n)
  | VStr s => Some (quote s)
  | VArr items =>
      Some ("[" ++
            join ","
              (map (fun x => match JSON_stringify x with
                             | Some s => s
                             | None => "null"
                             end) items) ++ "]")
  | VObj fields =>
      Some ("{" ++
            join ","
              ((fix members (l : list (string * value)) : list string :=
                  match l with
                  | [] => []
                  | (k, x) :: r =>
                      match JSON_stringify x with
                      | Some s => (quote k ++ ":" ++ s) :: members r
                      | None => members r
                      end
                  end) fields) ++ "}")
  end.

(** ** A JSON reader

    The scripts call the built-in [JSON.parse]; their definitions below take
    it as a parameter and the properties hold for every reader.  [parse_json]
    is a reader for the fragment of JSON without fractions, exponents and
    unicode escapes, which instantiates that parameter in the closed
    examples.  [None] stands for the SyntaxError of [JSON.parse].  A repeated
    key keeps its first place and its last value. *)

Definition is_ws (c : ascii) : bool :=
  let n := N_of_ascii c in
  ((n =? 32) || (n =? 9) || (n =? 10) || (n =? 13))%N.

Definition is_digit (c : ascii) : bool :=
  let n := N_of_ascii c in ((48 <=? n) && (n <=? 57))%N.

Fixpoint all_digits (s : string) : bool :=
  match s with
  | EmptyString => true
  | String c r => is_digit c && all_digits r
  end.

Fixpoint skip_ws (s : string) : string :=
  match s with
  | EmptyString => ""
  | String c r => if is_ws c then skip_ws r else s
  end.

(** The text of a string literal after its opening quote. *)
Fixpoint read_string (s : string) : option (string * string) :=
  match s with
  | EmptyString => None
  | String c r =>
      if Ascii.eqb c dquote then Some ("", r)
      else if Ascii.eqb c backslash then
        match r with
        | String e r' =>
            let unescaped :=
              if Ascii.eqb e dquote then Some dquote
              else if Ascii.eqb e backslash then Some backslash
              else if Ascii.eqb e "/" then Some "/"%char
              else if Ascii.eqb e "b" then Some "008"%char
              else if Ascii.eqb e "t" then Some "009"%char
              else if Ascii.eqb e "n" then Some "010"%char
              else if Ascii.eqb e "f" then Some "012"%char
              else if Ascii.eqb e "r" then Some "013"%char
              else None in
            match unescaped, read_string r' with
            | Some ch, Some (t, rest) => Some (String ch t, rest)
            | _, _ => None
            end
        | EmptyString => None
        end
      else if (N_of_ascii c <? 32)%N then None
      else
        match read_string r with
        | Some (t, rest) => Some (String c t, rest)
        | None => None
        end
  end.

Fixpoint read_digits (acc : Z) (s : string) : Z * string :=
  match s with
  | EmptyString => (acc, "")
  | String c r =>
      if is_digit c
      then read_digits (10 * acc + (Z.of_N (N_of_ascii c) - 48)) r
      else (acc, s)
  end.

(** An integer literal: one digit at least, no leading zero, and nothing of
    a fraction or an exponent after it. *)
Definition read_number (s : string) : option (Z * string) :=
  let '(neg, body) :=
    match s with
    | String "-" r => (true, r)
    | _ => (false, s)
    end in
  match body with
  | String c r =>
      if is_digit c then
        let '(n, rest) := read_digits 0 body in
        let leading_zero :=
          Ascii.eqb c "0" &&
          match r with String d _ => is_digit d | EmptyString => false end in
        let continues :=
          match rest with
          | String d _ =>
              Ascii.eqb d "." || Ascii.eqb d "e" || Ascii.eqb d "E"
          | EmptyString => false
          end in
        if leading_zero || continues then None
        else Some (if neg then (- n)%Z else n, rest)
      else None
  | EmptyString => None
  end.

Definition read_word (w : string) (v : value) (s : string)
  : option (value * string) :=
  if String.prefix w s
  then Some (v, substring (String.length w) (String.length s - String.length w) s)
  else None.

Fixpoint read_value (fuel : nat) (s : string) : option (value * string) :=
  match fuel with
  | O => None
  | S f =>
      match skip_ws s with
      | EmptyString => None
      | String c r as s' =>
          if Ascii.eqb c "n" then read_word "null" VNull s'
          else if Ascii.eqb c "t" then read_word "true" (VBool true) s'
          else if Ascii.eqb c "f" then read_word "false" (VBool false) s'
          else if Ascii.eqb c dquote then
            match read_string r with
            | Some (t, rest) => Some (VStr t, rest)
            | None => None
            end
          else if Ascii.eqb c "[" then
            match skip_ws r with
            | String "]" rest => Some (VArr [], rest)
            | r' =>
                match read_elements f r' with
                | Some (items, rest) => Some (VArr items, rest)
                | None => None
                end
            end
          else if Ascii.eqb c "{" then
            match skip_ws r with
            | String "}" rest => Some (VObj [], rest)
            | r' =>
                match read_members f [] r' with
                | Some (fields, rest) => Some (VObj fields, rest)
                | None => None
                end
            end
          else
            match read_number s' with
            | Some (n, rest) => Some (VNum n, rest)
            | None => None
            end
      end
  end

with read_elements (fuel : nat) (s : string)
  : option (list value * string) :=
  match fuel with
  | O => None
  | S f =>
      match read_value f s with
      | Some (v, rest) =>
          match skip_ws rest with
          | String "," rest' =>
              match read_elements f rest' with
              | Some (vs, rest'') => Some (v :: vs, rest'')
              | None => None
              end
          | String "]" rest' => Some ([v], rest')
          | _ => None
          end
      | None => None
      end
  end

with read_members (fuel : nat) (acc : list (string * value)) (s : string)
  : option (list (string * value) * string) :=
  match fuel with
  | O => None
  | S f =>
      match skip_ws s with
      | String c r =>
          if Ascii.eqb c dquote then
            match read_string r with
            | Some (k, rest) =>
                match skip_ws rest with
                | String ":" rest' =>
                    match read_value f rest' with
                    | Some (v, rest'') =>
                        let acc' := setField acc k v in
                        match skip_ws rest'' with
                        | String "," rest3 => read_members f acc' rest3
                        | String "}" rest3 => Some (acc', rest3)
                        | _ => None
                        end
                    | None => None
                    end
                | _ => None
                end
            | None => None
            end
          else None
      | EmptyString => None
      end
  end.

Definition parse_json (s : string) : option value :=
  match read_value (S (String.length s)) s with
  | Some (v, rest) =>
      match skip_ws rest with
      | EmptyString => Some v
      | _ => None
      end
  | None => None
  end.

End JS.


(* ================================================================== *)
(** * The runtime: calls to the outside *)
(* ================================================================== *)

Module Node.
Import JS.

(** The options handed to [https.request], with what [req.write] sent
    before [req.end]. *)
Record request : Type := {
  hostname : string;
  port : N;
  path : string;
  method : string;
  headers : list (string * value);
  written : option string
}.

(** The response object [res]: its status code and the chunks of its 'data'
    events, in order. *)
Record incoming : Type := {
  statusCode : N;
  chunks : list string
}.

(** A request ends in exactly one of the two events. *)
Inductive http_outcome : Type :=
| Responded (res : incoming)   (* res.on('end') *)
| Failed (error : thrown).     (* req.on('error') *)

(** The calls of the three scripts, indexed by the type of their answer. *)
Inductive action : Type -> Type :=
| HttpsRequest (req : request) : action http_outcome
| PathResolve (p : string) : action string
| ExistsSync (p : string) : action bool
| ReadFileSync (p : string) : action (result string)
| GetContent (params : value) : action (result value)
| CreateOrUpdateFileContents (params : value) : action (result value).

(** A program: it is done, or it makes a call and goes on with the answer. *)
Inductive prog (R : Type) : Type :=
| Done (r : R)
| Do {A : Type} (a : action A) (k : A -> prog R).
Arguments Done {R} r.
Arguments Do {R A} a k.

Notation "x <~ a ;; k" := (Do a (fun x => k))
  (at level 61, a at next level, right associativity).

Fixpoint pbind {R S} (p : prog R) (f : R -> prog S) : prog S :=
  match p with
  | Done r => f r
  | Do a k => Do a (fun x => pbind (k x) f)
  end.

(** The record of a call, as it is observed from outside. *)
Inductive event : Type :=
| EHttps (req : request)
| EResolve (p : string)
| EExists (p : string)
| ERead (p : string)
| EGetContent (params : value)
| EPut (params : value).

Definition event_of {A} (a : action A) : event :=
  match a with
  | HttpsRequest req => EHttps req
  | PathResolve p => EResolve p
  | ExistsSync p => EExists p
  | ReadFileSync p => ERead p
  | GetContent params => EGetContent params
  | CreateOrUpdateFileContents params => EPut params
  end.

(** The outside: what each call answers. *)
Record world : Type := {
  https : request -> http_outcome;
  path_resolve : string -> string;
  fs_existsSync : string -> bool;
  fs_readFileSync : string -> result string;
  repos_getContent : value -> result value;
  repos_createOrUpdateFileContents : value -> result value
}.

Definition answer (w : world) {A} (a : action A) : A :=
  match a with
  | HttpsRequest req => https w req
  | PathResolve p => path_resolve w p
  | ExistsSync p => fs_existsSync w p
  | ReadFileSync p => fs_readFileSync w p
  | GetContent params => repos_getContent w params
  | CreateOrUpdateFileContents params =>
      repos_createOrUpdateFileContents w params
  end.

(** Running a program in a world: the calls it made, in order, and its
    result. *)
Fixpoint run {R} (w : world) (p : prog R) : list event * R :=
  match p with
  | Done r => ([], r)
  | Do a k =>
      let '(t, r) := run w (k (answer w a)) in (event_of a :: t, r)
  end.

Definition trace {R} (w : world) (p : prog R) : list event := fst (run w p).
Definition outcome {R} (w : world) (p : prog R) : R := snd (run w p).

(** How a script that calls [process.exit] ends. *)
Inductive ending : Type :=
| Returned (v : value)
| Exited (code : N).

(** [responseData += chunk] over the 'data' events, from the empty string. *)
Definition collect (chunks : list string) : string :=
  fold_left String.append chunks "".

(** The message of the error both https scripts reject with. *)
Definition http_message (status : N) (responseData : string) : string :=
  "HTTP " ++ string_of_N status ++ ": " ++ responseData.

(** ** Buffer: base64 *)

Definition base64_char (n : N) : ascii :=
  ascii_of_N
    (if (n <? 26)%N then 65 + n
     else if (n <? 52)%N then 71 + n
     else if (n <? 62)%N then n - 4
     else if (n =? 62)%N then 43
     else 47).

(** [Buffer.from(s).toString('base64')]: three bytes give four characters,
    the tail is padded. *)
Fixpoint base64 (s : string) : string :=
  match s with
  | EmptyString => ""
  | String a EmptyString =>
      let x := N_of_ascii a in
      String (base64_char (x / 4))
        (String (base64_char ((x mod 4) * 16)) "==")
  | String a (String b EmptyString) =>
      let x := N_of_ascii a in
      let y := N_of_ascii b in
      String (base64_char (x / 4))
        (String (base64_char ((x mod 4) * 16 + y / 16))
           (String (base64_char ((y mod 16) * 4)) "="))
  | String a (String b (String c r)) =>
      let x := N_of_ascii a in
      let y := N_of_ascii b in
      let z := N_of_ascii c in
      String (base64_char (x / 4))
        (String (base64_char ((x mod 4) * 16 + y / 16))
           (String (base64_char ((y mod 16) * 4 + z / 64))
              (String (base64_char (z mod 64)) (base64 r))))
  end.

End Node.

(* ================================================================== *)
(** * push-workflow.js *)
(* ================================================================== *)

Module PushWorkflow.
Import JS Node.

Definition OWNER : string := "akhilesh1207".
Definition REPO : string := "test-codeql".
Definition BRANCH : string := "main".
Definition WORKFLOW_PATH : string := ".github/workflows/codeql-manual.yml".

(** The argument of [octokit.rest.repos.getContent]. *)
Definition getContentParams : value :=
  VObj [("owner", VStr OWNER); ("repo", VStr REPO);
        ("path", VStr WORKFLOW_PATH); ("ref", VStr BRANCH)].

(** The inner try and catch around the existence check: [existingFile]
    after it, or what it throws again.  [answer] is the settled promise of
    [getContent]; the response is destructured inside the try. *)
Definition checkExisting (answer : result value) : result value :=
  match (response <- answer ;; getProp response "data") with
  | Ok data => Ok data
  | Throw error =>
      match status_of error with
      | Some 404%N => Ok VNull
      | _ => Throw error
      end
  end.

(** The request data, with the sha added when [existingFile] is truthy. *)
Definition prepare (contentBase64 : string) (existingFile : value)
  : result value :=
  let requestData :=
    VObj [("owner", VStr OWNER); ("repo", VStr REPO);
          ("path", VStr WORKFLOW_PATH);
          ("message",
           VStr (if truthy existingFile
                 then "Update CodeQL manual trigger workflow"
                 else "Add CodeQL manual trigger workflow"));
          ("content", VStr contentBase64);
          ("branch", VStr BRANCH)] in
  if truthy existingFile then
    sha <- getProp existingFile "sha" ;;
    Ok (setProp requestData "sha" sha)
  else Ok requestData.

(** What follows the PUT: the commit URL is read and printed, then the
    data of the response is returned. *)
Definition finish (answer : result value) : result value :=
  response <- answer ;;
  data <- getProp response "data" ;;
  commit <- getProp data "commit" ;;
  html_url <- getProp commit "html_url" ;;
  _ <- ToString html_url ;;
  Ok data.

(** The body of the outer try. *)
Definition pushWorkflow_try : prog (result value) :=
  workflowFilePath <~ PathResolve WORKFLOW_PATH ;;
  found <~ ExistsSync workflowFilePath ;;
  if negb found then
    Done (Throw (Error ("Workflow file not found: " ++ workflowFilePath)))
  else
    content <~ ReadFileSync workflowFilePath ;;
    match content with
    | Throw e => Done (Throw e)
    | Ok workflowContent =>
        let contentBase64 := base64 workflowContent in
        answer <~ GetContent getContentParams ;;
        match checkExisting answer with
        | Throw e => Done (Throw e)
        | Ok existingFile =>
            match prepare contentBase64 existingFile with
            | Throw e => Done (Throw e)
            | Ok requestData =>
                answer' <~ CreateOrUpdateFileContents requestData ;;
                Done (finish answer')
            end
        end
    end.

(** The outer catch prints the error and leaves with [process.exit(1)]. *)
Definition pushWorkflow : prog ending :=
  pbind pushWorkflow_try
    (fun r =>
       Done (match r with
             | Ok data => Returned data
             | Throw _ => Exited 1
             end)).

End PushWorkflow.

(* ================================================================== *)
(** * trigger-codeql.js *)
(* ================================================================== *)

Module TriggerCodeql.
Import JS Node.

Section Script.

(** [process.env.GITHUB_TOKEN]; the script leaves at once when it is
    missing. *)
Variable GITHUB_TOKEN : string.

Definition OWNER : string := "akhilesh1207".
Definition REPO : string := "test-codeql".
Definition WORKFLOW_FILE : string := "codeql-manual.yml".

(** One destructured option with its default. *)
Definition option_or (options : value) (k : string) (d : value)
  : result value :=
  x <- getProp options k ;; Ok (withDefault x d).

(** The object handed to [JSON.stringify]. *)
Definition dispatchBody (options : value) : result value :=
  let options := withDefault options (VObj []) in
  languages <- option_or options "languages"
                 (VStr "javascript-typescript,actions") ;;
  queries <- option_or options "queries" (VStr "security-extended") ;;
  uploadSarif <- option_or options "uploadSarif" (VBool true) ;;
  ref <- option_or options "ref" (VStr "main") ;;
  upload_sarif <- toString uploadSarif ;;
  Ok (VObj [("ref", ref);
            ("inputs",
             VObj [("languages", languages);
                   ("queries", queries);
                   ("upload_sarif", VStr upload_sarif)])]).

(** [data] and [requestOptions]; [written] is what [req.write(data)]
    sends. *)
Definition requestOptions (options : value) : result request :=
  body <- dispatchBody options ;;
  let data :=
    match JSON_stringify body with
    | Some s => VStr s
    | None => VUndefined
    end in
  data_length <- getProp data "length" ;;
  Ok {| hostname := "api.github.com";
        port := 443;
        path := "/repos/" ++ OWNER ++ "/" ++ REPO ++ "/actions/workflows/"
                ++ WORKFLOW_FILE ++ "/dispatches";
        method := "POST";
        headers :=
          [("Authorization", VStr ("token " ++ GITHUB_TOKEN));
           ("Accept", VStr "application/vnd.github.v3+json");
           ("Content-Type", VStr "application/json");
           ("Content-Length", data_length);
           ("User-Agent", VStr "CodeQL-Trigger/1.0.0")];
        written := match data with VStr s => Some s | _ => None end |}.

(** The 'end' handler of the response. *)
Definition onEnd (res : incoming) : result value :=
  let responseData := collect (chunks res) in
  if (statusCode res =? 204)%N then
    Ok (VObj [("success", VBool true);
              ("statusCode", VNum (Z.of_N (statusCode res)))])
  else Throw (Error (http_message (statusCode res) responseData)).

(** The four configuration lines that the promise prints before it makes
    the request: each puts one destructured option through a template
    literal, in the order languages, queries, uploadSarif, ref.  The options
    are the ones [dispatchBody] destructured. *)
Definition printConfiguration (options : value) : result unit :=
  let options := withDefault options (VObj []) in
  languages <- option_or options "languages"
                 (VStr "javascript-typescript,actions") ;;
  queries <- option_or options "queries" (VStr "security-extended") ;;
  uploadSarif <- option_or options "uploadSarif" (VBool true) ;;
  ref <- option_or options "ref" (VStr "main") ;;
  _ <- ToString languages ;;
  _ <- ToString queries ;;
  _ <- ToString uploadSarif ;;
  _ <- ToString ref ;;
  Ok tt.

(** A throw while the options are made, or inside the promise before the
    request, rejects the promise without a request. *)
Definition triggerWorkflow (options : value) : prog (result value) :=
  match requestOptions options with
  | Throw e => Done (Throw e)
  | Ok req =>
      match printConfiguration options with
      | Throw e => Done (Throw e)
      | Ok _ =>
          out <~ HttpsRequest req ;;
          match out with
          | Responded res => Done (onEnd res)
          | Failed error => Done (Throw error)
          end
      end
  end.

End Script.

End TriggerCodeql.

(* ================================================================== *)
(** * workflow-manager.js *)
(* ================================================================== *)

Module WorkflowManager.
Import JS Node.

Section Script.

Variable GITHUB_TOKEN : string.

(** The built-in [JSON.parse]; [None] when it throws. *)
Variable JSON_parse : string -> option value.

Definition OWNER : string := "akhilesh1207".
Definition REPO : string := "test-codeql".

(** The options of the request and what is written to it.  [method] and
    [data] are [None] when the argument is left out; [data], when given, is
    the string passed to [req.write]. *)
Definition makeRequest_options (path : string) (method : option string)
    (data : option string) : request :=
  let body :=   (* data when [if (data)] holds *)
    match data with
    | Some s => if s =? "" then None else Some s
    | None => None
    end in
  {| hostname := "api.github.com";
     port := 443;
     Node.path := path;
     Node.method := match method with Some m => m | None => "GET" end;
     headers :=
       [("Authorization", VStr ("token " ++ GITHUB_TOKEN));
        ("Accept", VStr "application/vnd.github.v3+json");
        ("User-Agent", VStr "Workflow-Manager/1.0.0")]
       ++ match body with
          | Some s =>
              [("Content-Type", VStr "application/json");
               ("Content-Length", VNum (Z.of_nat (byteLength s)))]
          | None => []
          end;
     written := body |}.

(** The try and catch inside the 'end' handler: the data the promise is
    resolved with. *)
Definition resolved_data (responseData : string) : value :=
  match (if negb (responseData =? "")
         then JSON_parse responseData
         else Some (VObj []))
  with
  | Some parsed => parsed
  | None => VStr responseData
  end.

(** The 'end' handler of the response. *)
Definition makeRequest_onEnd (res : incoming) : result value :=
  let responseData := collect (chunks res) in
  if ((200 <=? statusCode res) && (statusCode res <? 300))%N then
    Ok (VObj [("statusCode", VNum (Z.of_N (statusCode res)));
              ("data", resolved_data responseData)])
  else Throw (Error (http_message (statusCode res) responseData)).

Definition makeRequest (path : string) (method : option string)
    (data : option string) : prog (result value) :=
  out <~ HttpsRequest (makeRequest_options path method data) ;;
  match out with
  | Responded res => Done (makeRequest_onEnd res)
  | Failed error => Done (Throw error)
  end.

Definition workflow_path (workflowFile suffix : string) : string :=
  "/repos/" ++ OWNER ++ "/" ++ REPO ++ "/actions/workflows/"
  ++ workflowFile ++ suffix.

(** The catch of every operation prints the message and throws the same
    error again. *)
Definition rethrow {A} (r : result A) : result A :=
  match r with
  | Ok a => Ok a
  | Throw error => Throw error
  end.

Definition disableWorkflow (workflowFile : string) : prog (result value) :=
  pbind (makeRequest (workflow_path workflowFile "/disable") (Some "PUT") None)
    (fun r => Done (rethrow r)).

Definition enableWorkflow (workflowFile : string) : prog (result value) :=
  pbind (makeRequest (workflow_path workflowFile "/enable") (Some "PUT") None)
    (fun r => Done (rethrow r)).

(** A property read that is printed through a template literal. *)
Definition printed (v : value) (k : string) : result unit :=
  x <- getProp v k ;; _ <- ToString x ;; Ok tt.

(** What follows the request in [getWorkflowStatus]: the details are
    printed and the response is returned. *)
Definition getWorkflowStatus_then (r : result value) : result value :=
  rethrow
    (response <- r ;;
     workflow <- getProp response "data" ;;
     _ <- printed workflow "name" ;;
     _ <- printed workflow "state" ;;
     _ <- printed workflow "path" ;;
     _ <- printed workflow "id" ;;
     _ <- printed workflow "created_at" ;;
     _ <- printed workflow "updated_at" ;;
     Ok response).

Definition getWorkflowStatus (workflowFile : string)
  : prog (result value) :=
  pbind (makeRequest (workflow_path workflowFile "") None None)
    (fun r => Done (getWorkflowStatus_then r)).

(** [workflows.forEach(callback)]: only an array has the method. *)
Definition forEach (v : value) (callback : value -> nat -> result unit)
  : result unit :=
  match v with
  | VUndefined | VNull => Throw (TypeError_read v "forEach")
  | VArr items =>
      (fix each (l : list value) (index : nat) : result unit :=
         match l with
         | [] => Ok tt
         | x :: r => _ <- callback x index ;; each r (S index)
         end) items 0
  | _ => Throw (TypeError_call "forEach")
  end.

(** The callback of the listing: four lines printed per workflow. *)
Definition listWorkflows_each (workflow : value) (index : nat)
  : result unit :=
  _ <- getProp workflow "state" ;;
  _ <- printed workflow "name" ;;
  _ <- printed workflow "path" ;;
  _ <- printed workflow "state" ;;
  _ <- printed workflow "id" ;;
  Ok tt.

(** What follows the request in [listWorkflows]: the count and the
    workflows are printed and the response is returned. *)
Definition listWorkflows_then (r : result value) : result value :=
  rethrow
    (response <- r ;;
     data <- getProp response "data" ;;
     workflows <- getProp data "workflows" ;;
     _ <- printed workflows "length" ;;
     _ <- forEach workflows listWorkflows_each ;;
     Ok response).

Definition listWorkflows_path : string :=
  "/repos/" ++ OWNER ++ "/" ++ REPO ++ "/actions/workflows".

Definition listWorkflows : prog (result value) :=
  pbind (makeRequest listWorkflows_path None None)
    (fun r => Done (listWorkflows_then r)).

End Script.

End WorkflowManager.


(* ================================================================== *)
(** * The command lines of trigger-codeql.js and workflow-manager.js *)
(* ================================================================== *)

(** [args] is [process.argv.slice(2)] throughout. *)

Module TriggerCodeqlMain.
Import JS Node.

Section Script.

Variable GITHUB_TOKEN : string.

(** [value === 'true'], for an argument that may be missing. *)
Definition is_true_text (value : JS.value) : bool :=
  match value with
  | VStr s => s =? "true"
  | _ => false
  end.

(** The switch on [key] of one turn of the loop; [None] is the return
    that follows the help text.  A key that is none of the five is passed
    over with its value. *)
Definition switch_key (options : value) (key : string) (value : JS.value)
  : option JS.value :=
  if key =? "--languages" then Some (setProp options "languages" value)
  else if key =? "--queries" then Some (setProp options "queries" value)
  else if key =? "--upload-sarif" then
    Some (setProp options "uploadSarif" (VBool (is_true_text value)))
  else if key =? "--ref" then Some (setProp options "ref" value)
  else if key =? "--help" then None
  else Some options.

(** The loop over the arguments, two at a time; the value of a last key
    without a partner is undefined. *)
Fixpoint parse (args : list string) (options : value) : option value :=
  match args with
  | [] => Some options
  | [key] => switch_key options key VUndefined
  | key :: value :: rest =>
      match switch_key options key (VStr value) with
      | Some options' => parse rest options'
      | None => None
      end
  end.

(** [main]: the parsed options are dispatched; a rejection is printed and
    ends the process with code 1. *)
Definition main (args : list string) : prog ending :=
  match parse args (VObj []) with
  | None => Done (Returned VUndefined)
  | Some options =>
      pbind (TriggerCodeql.triggerWorkflow GITHUB_TOKEN options)
        (fun r =>
           Done (match r with
                 | Ok _ => Returned VUndefined
                 | Throw _ => Exited 1
                 end))
  end.

End Script.

(** The options the command line builds: an object whose upload flag,
    when set, is a boolean. *)
Definition from_command_line (options : value) : Prop :=
  exists fields,
    options = VObj fields /\
    forall x, getField fields "uploadSarif" = Some x -> exists b, x = VBool b.

(** A value that is nothing, a boolean or a text. *)
Definition primitive (x : value) : Prop :=
  x = VUndefined \/ (exists b, x = VBool b) \/ (exists t, x = VStr t).

Definition primitive_options (options : value) : Prop :=
  exists fields,
    options = VObj fields /\
    forall k x, getField fields k = Some x -> primitive x.

(** A value the command line can give an option: nothing, a boolean, or
    a text of seven-bit characters. *)
Definition plain (x : value) : Prop :=
  x = VUndefined \/ (exists b, x = VBool b) \/
  (exists t, x = VStr t /\ all_ascii t = true).

Definition plain_options (options : value) : Prop :=
  exists fields,
    options = VObj fields /\
    forall k x, getField fields k = Some x -> plain x.

End TriggerCodeqlMain.

Module WorkflowManagerMain.
Import JS Node.

Section Script.

Variable GITHUB_TOKEN : string.
Variable JSON_parse : string -> option value.

(** [String.prototype.toLowerCase] on the letters A to Z.  The bytes of
    other characters are left as they are: no character outside ASCII
    lowers to a letter of the four action names (the only one that lowers
    to an ASCII letter at all is the Kelvin sign, to k), so the switch
    below takes the same branch. *)
Definition lower (c : ascii) : ascii :=
  let n := N_of_ascii c in
  if ((65 <=? n) && (n <=? 90))%N then ascii_of_N (n + 32) else c.

Fixpoint toLowerCase (s : string) : string :=
  match s with
  | EmptyString => ""
  | String c r => String (lower c) (toLowerCase r)
  end.

(** [args[i]] when it is truthy: an argument that is there and not the
    empty text. *)
Definition given (a : option string) : option string :=
  match a with
  | Some s => if s =? "" then None else Some s
  | None => None
  end.

(** The end of [main] after an awaited operation: the catch prints the
    error and leaves with code 1. *)
Definition settle (r : result value) : ending :=
  match r with
  | Ok _ => Returned VUndefined
  | Throw _ => Exited 1
  end.

(** A case of the switch that needs the workflow file. *)
Definition with_file (workflowFile : option string)
    (operation : string -> prog (result value)) : prog ending :=
  match given workflowFile with
  | None => Done (Exited 1)
  | Some file => pbind (operation file) (fun r => Done (settle r))
  end.

Definition main (args : list string) : prog ending :=
  let action := nth_error args 0 in
  let workflowFile := nth_error args 1 in
  match given action with
  | None => Done (Returned VUndefined)   (* the usage text *)
  | Some action =>
      let selected := toLowerCase action in
      if selected =? "disable" then
        with_file workflowFile
          (WorkflowManager.disableWorkflow GITHUB_TOKEN JSON_parse)
      else if selected =? "enable" then
        with_file workflowFile
          (WorkflowManager.enableWorkflow GITHUB_TOKEN JSON_parse)
      else if selected =? "status" then
        with_file workflowFile
          (WorkflowManager.getWorkflowStatus GITHUB_TOKEN JSON_parse)
      else if selected =? "list" then
        pbind (WorkflowManager.listWorkflows GITHUB_TOKEN JSON_parse)
          (fun r => Done (settle r))
      else Done (Exited 1)
  end.

End Script.

End WorkflowManagerMain.

(* ================================================================== *)
(** * Reading base64 back *)
(* ================================================================== *)

(** The scripts only encode.  The decoder states what the encoding keeps:
    it is the inverse the contents endpoint applies to the content it is
    sent. *)
Module Base64.
Import JS Node.

Definition index_of (c : ascii) : option N :=
  let n := N_of_ascii c in
  if ((65 <=? n) && (n <=? 90))%N then Some (n - 65)%N
  else if ((97 <=? n) && (n <=? 122))%N then Some (n - 71)%N
  else if ((48 <=? n) && (n <=? 57))%N then Some (n + 4)%N
  else if (n =? 43)%N then Some 62%N
  else if (n =? 47)%N then Some 63%N
  else None.

Fixpoint decode (s : string) : option string :=
  match s with
  | EmptyString => Some ""
  | String a (String b (String c (String d r))) =>
      match index_of a, index_of b with
      | Some p, Some q =>
          let x := ascii_of_N (p * 4 + q / 16) in
          if Ascii.eqb c "=" then
            if Ascii.eqb d "=" then
              match r with
              | EmptyString => Some (String x "")
              | _ => None
              end
            else None
          else
            match index_of c with
            | Some u =>
                let y := ascii_of_N ((q mod 16) * 16 + u / 4) in
                if Ascii.eqb d "=" then
                  match r with
                  | EmptyString => Some (String x (String y ""))
                  | _ => None
                  end
                else
                  match index_of d, decode r with
                  | Some v, Some t =>
                      let z := ascii_of_N ((u mod 4) * 64 + v) in
                      Some (String x (String y (String z t)))
                  | _, _ => None
                  end
            | None => None
            end
      | _, _ => None
      end
  | _ => None
  end.

End Base64.

(* ================================================================== *)
(** * Worlds and inputs of the closed examples *)
(* ================================================================== *)

Module Fixtures.
Import JS Node.

Definition token : string := "ghp_example".

(** What the contents endpoint answers on a successful PUT. *)
Definition put_response : value :=
  VObj [("status", VNum 201);
        ("data",
         VObj [("content", VObj [("sha", VStr "9fceb02")]);
               ("commit",
                VObj [("sha", VStr "7638417");
                      ("html_url",
                       VStr "https://github.com/akhilesh1207/test-codeql/commit/7638417")])])].

(** A world in which the workflow file is on disk, every https request
    ends in [http] and the existence check is answered by [existing]. *)
Definition world_of (http : http_outcome) (existing : result value) : world :=
  {| https := fun _ => http;
     path_resolve := fun p => "/home/runner/test-codeql/" ++ p;
     fs_existsSync := fun _ => true;
     fs_readFileSync := fun _ => Ok "name: CodeQL";
     repos_getContent := fun _ => existing;
     repos_createOrUpdateFileContents := fun _ => Ok put_response |}.

Definition refused : http_outcome := Failed (SystemError "ECONNREFUSED").

Definition not_found : result value :=
  Throw (RequestError 404 "Not Found").

Definition forbidden : result value :=
  Throw (RequestError 403 "Resource not accessible by personal access token").

Definition found : result value :=
  Ok (VObj [("status", VNum 200);
            ("data",
             VObj [("type", VStr "file");
                   ("path", VStr ".github/workflows/codeql-manual.yml");
                   ("sha", VStr "3d21ec53a331a6f037a91c368710b99387d012c1")])]).

(** The dispatch options of the example in the specification. *)
Definition dispatch_options : value :=
  VObj [("languages", VStr "python,javascript-typescript");
        ("queries", VStr "security-extended");
        ("uploadSarif", VBool true);
        ("ref", VStr "main")].

Definition response (status : N) (body : list string) : http_outcome :=
  Responded {| statusCode := status; chunks := body |}.

(** Two workflows, as the listing endpoint returns them. *)
Definition two_workflows : value :=
  VObj [("total_count", VNum 2);
        ("workflows",
         VArr [VObj [("id", VNum 161335); ("name", VStr "CodeQL");
                     ("path", VStr ".github/workflows/codeql.yml");
                     ("state", VStr "active")];
               VObj [("id", VNum 269289); ("name", VStr "CodeQL Manual");
                     ("path", VStr ".github/workflows/codeql-manual.yml");
                     ("state", VStr "disabled_manually")]])].

(** The JSON text of the default dispatch. *)
Definition default_dispatch_text : string :=
  "{" ++ in_quotes "ref" ++ ":" ++ in_quotes "main" ++ ","
  ++ in_quotes "inputs" ++ ":{"
  ++ in_quotes "languages" ++ ":"
  ++ in_quotes "javascript-typescript,actions" ++ ","
  ++ in_quotes "queries" ++ ":" ++ in_quotes "security-extended" ++ ","
  ++ in_quotes "upload_sarif" ++ ":" ++ in_quotes "true" ++ "}}".

Definition text_of (v : value) : string :=
  match JSON_stringify v with
  | Some s => s
  | None => ""
  end.

End Fixtures.

(** Worlds of the closed examples in which the local file is missing, or
    the PUT is refused. *)
Module Fixtures2.
Import JS Node.

Definition world_without_file : world :=
  {| https := fun _ => Fixtures.refused;
     path_resolve := fun p => "/home/runner/test-codeql/" ++ p;
     fs_existsSync := fun _ => false;
     fs_readFileSync := fun _ => Throw (SystemError "ENOENT");
     repos_getContent := fun _ => Fixtures.not_found;
     repos_createOrUpdateFileContents := fun _ => Ok Fixtures.put_response |}.

Definition world_with_conflict : world :=
  {| https := fun _ => Fixtures.refused;
     path_resolve := fun p => "/home/runner/test-codeql/" ++ p;
     fs_existsSync := fun _ => true;
     fs_readFileSync := fun _ => Ok "name: CodeQL";
     repos_getContent := fun _ => Fixtures.not_found;
     repos_createOrUpdateFileContents :=
       fun _ => Throw (RequestError 409 "Conflict") |}.

Definition one_workflow : value :=
  VObj [("id", VNum 161335); ("name", VStr "CodeQL");
        ("path", VStr ".github/workflows/codeql.yml");
        ("state", VStr "active");
        ("created_at", VStr "2024-01-08T10:00:00.000Z");
        ("updated_at", VStr "2024-01-08T10:00:00.000Z")].

End Fixtures2.

(* ================================================================== *)
(** * Properties *)
(* ================================================================== *)

Import JS Node.

(** ** Decimal printing and the error message *)

Lemma string_of_uint_all_digits (d : uint) :
  all_digits (NilEmpty.string_of_uint d) = true.
Proof.
  induction d; simpl; auto.
Qed.

Lemma string_of_N_all_digits (n : N) : all_digits (string_of_N n) = true.
Proof.
  apply string_of_uint_all_digits.
Qed.

Lemma string_of_N_inj (n m : N) : string_of_N n = string_of_N m -> n = m.
Proof.
  unfold string_of_N. intros H.
  apply Unsigned.to_uint_inj.
  assert (E : Some (N.to_uint n) = Some (N.to_uint m)).
  { rewrite <- !NilEmpty.usu. now rewrite H. }
  now injection E.
Qed.

(** Two runs of digits followed by the same non-digit are cut at the same
    place. *)
Lemma digits_then_mark (c : ascii) (d1 : string) :
  forall d2 r1 r2,
    is_digit c = false ->
    all_digits d1 = true -> all_digits d2 = true ->
    d1 ++ String c r1 = d2 ++ String c r2 ->
    d1 = d2 /\ r1 = r2.
Proof.
  induction d1 as [|a d1 IH]; intros [|b d2] r1 r2 Hc H1 H2 E; simpl in *.
  - injection E as ->. auto.
  - injection E as -> _.
    apply andb_prop in H2 as [H2 _]. congruence.
  - injection E as -> _.
    apply andb_prop in H1 as [H1 _]. congruence.
  - injection E as -> E.
    apply andb_prop in H1 as [_ H1]. apply andb_prop in H2 as [_ H2].
    destruct (IH d2 r1 r2 Hc H1 H2 E) as [-> ->]. auto.
Qed.

(** The message determines the status and the body it was built from. *)
Lemma http_message_inj (s1 s2 : N) (b1 b2 : string) :
  http_message s1 b1 = http_message s2 b2 -> s1 = s2 /\ b1 = b2.
Proof.
  unfold http_message. intros E.
  simpl in E. injection E as E.
  apply digits_then_mark in E;
    [ | reflexivity | apply string_of_N_all_digits ..].
  destruct E as [E1 E2]. apply string_of_N_inj in E1.
  injection E2 as E2. auto.
Qed.

(** ** Running a program *)

Lemma run_pbind {R S} (w : world) (p : prog R) (f : R -> prog S) :
  run w (pbind p f) =
  ((fst (run w p) ++ fst (run w (f (snd (run w p)))))%list,
   snd (run w (f (snd (run w p))))).
Proof.
  induction p as [r | A a k IH]; simpl.
  - now destruct (run w (f r)).
  - rewrite IH. destruct (run w (k (answer w a))) as [t r]. reflexivity.
Qed.

Lemma outcome_pbind_Done {R S} (w : world) (p : prog R) (g : R -> S) :
  outcome w (pbind p (fun r => Done (g r))) = g (outcome w p).
Proof.
  unfold outcome. now rewrite run_pbind.
Qed.

Lemma trace_pbind_Done {R S} (w : world) (p : prog R) (g : R -> S) :
  trace w (pbind p (fun r => Done (g r))) = trace w p.
Proof.
  unfold trace. rewrite run_pbind. simpl. apply app_nil_r.
Qed.

(** ** The two https scripts: what a response settles the promise with *)

Section Https.

Variable GITHUB_TOKEN : string.
Variable JSON_parse : string -> option value.

Lemma makeRequest_outcome (w : world) path method data :
  outcome w (WorkflowManager.makeRequest GITHUB_TOKEN JSON_parse
               path method data) =
  match https w (WorkflowManager.makeRequest_options GITHUB_TOKEN
                   path method data) with
  | Responded res => WorkflowManager.makeRequest_onEnd JSON_parse res
  | Failed error => Throw error
  end.
Proof.
  unfold outcome, WorkflowManager.makeRequest. simpl.
  now destruct (https w _).
Qed.

Lemma makeRequest_trace (w : world) path method data :
  trace w (WorkflowManager.makeRequest GITHUB_TOKEN JSON_parse
             path method data) =
  [EHttps (WorkflowManager.makeRequest_options GITHUB_TOKEN
             path method data)].
Proof.
  unfold trace, WorkflowManager.makeRequest. simpl.
  now destruct (https w _).
Qed.

(** Every run of the dispatch, case by case. *)
Lemma triggerWorkflow_run (w : world) options :
  run w (TriggerCodeql.triggerWorkflow GITHUB_TOKEN options) =
  match TriggerCodeql.requestOptions GITHUB_TOKEN options with
  | Throw e => ([], Throw e)
  | Ok req =>
      match TriggerCodeql.printConfiguration options with
      | Throw e => ([], Throw e)
      | Ok _ =>
          ([EHttps req],
           match https w req with
           | Responded res => TriggerCodeql.onEnd res
           | Failed error => Throw error
           end)
      end
  end.
Proof.
  unfold TriggerCodeql.triggerWorkflow.
  destruct (TriggerCodeql.requestOptions GITHUB_TOKEN options) as [req | e];
    [ | reflexivity].
  destruct (TriggerCodeql.printConfiguration options) as [[] | e];
    [ | reflexivity].
  simpl. now destruct (https w req).
Qed.

(** A request of the dispatch that was made: the options and the printed
    configuration raised nothing, and the promise settles on the answer. *)
Lemma triggerWorkflow_sent (w : world) options req :
  In (EHttps req)
     (trace w (TriggerCodeql.triggerWorkflow GITHUB_TOKEN options)) ->
  TriggerCodeql.requestOptions GITHUB_TOKEN options = Ok req /\
  TriggerCodeql.printConfiguration options = Ok tt /\
  trace w (TriggerCodeql.triggerWorkflow GITHUB_TOKEN options)
  = [EHttps req] /\
  outcome w (TriggerCodeql.triggerWorkflow GITHUB_TOKEN options) =
  match https w req with
  | Responded res => TriggerCodeql.onEnd res
  | Failed error => Throw error
  end.
Proof.
  unfold trace, outcome. rewrite triggerWorkflow_run.
  destruct (TriggerCodeql.requestOptions GITHUB_TOKEN options) as [r | e];
    [ | intros []].
  destruct (TriggerCodeql.printConfiguration options) as [[] | e];
    [ | intros []].
  simpl. intros [E | []]. injection E as <-. auto.
Qed.

Lemma onEnd_not_204 (res : incoming) :
  statusCode res <> 204%N ->
  TriggerCodeql.onEnd res =
  Throw (Error (http_message (statusCode res) (collect (chunks res)))).
Proof.
  intros H. unfold TriggerCodeql.onEnd.
  destruct (N.eqb_spec (statusCode res) 204); [contradiction | reflexivity].
Qed.

Lemma makeRequest_onEnd_not_2xx (res : incoming) :
  ((200 <=? statusCode res) && (statusCode res <? 300))%N = false ->
  WorkflowManager.makeRequest_onEnd JSON_parse res =
  Throw (Error (http_message (statusCode res) (collect (chunks res)))).
Proof.
  intros H. unfold WorkflowManager.makeRequest_onEnd. now rewrite H.
Qed.

End Https.

(** C3.  Dispatch succeeds exactly on status 204.  For a dispatch whose
    request was made (it is in the trace of the run) and answered by a
    response [res]: the promise is fulfilled if and only if the status code
    is 204 (and then with success and that status); for every other status,
    among them the other 2xx codes, it is rejected with the error whose
    message is built from that status and the response body, and the
    message determines both. *)
Theorem triggerWorkflow_succeeds_only_on_204
    (GITHUB_TOKEN : string) (options : value) (w : world)
    (req : request) (res : incoming) :
  In (EHttps req)
     (trace w (TriggerCodeql.triggerWorkflow GITHUB_TOKEN options)) ->
  https w req = Responded res ->
  let settled := outcome w (TriggerCodeql.triggerWorkflow GITHUB_TOKEN options) in
  ((exists v, settled = Ok v) <-> statusCode res = 204%N) /\
  (statusCode res = 204%N ->
   settled = Ok (VObj [("success", VBool true); ("statusCode", VNum 204)])) /\
  (statusCode res <> 204%N ->
   settled =
   Throw (Error (http_message (statusCode res) (collect (chunks res)))) /\
   forall status body,
     http_message status body =
     http_message (statusCode res) (collect (chunks res)) ->
     status = statusCode res /\ body = collect (chunks res)).
Proof.
  intros Hsent Hres settled. subst settled.
  destruct (triggerWorkflow_sent _ _ _ _ Hsent) as (_ & _ & _ & ->).
  rewrite Hres.
  destruct (N.eq_dec (statusCode res) 204) as [E | NE].
  - repeat split; try congruence.
    + unfold TriggerCodeql.onEnd. rewrite E. simpl. eauto.
    + intros _. unfold TriggerCodeql.onEnd. rewrite E. reflexivity.
  - rewrite (onEnd_not_204 _ NE). split; [split | split].
    + intros [v Hv]. discriminate.
    + contradiction.
    + contradiction.
    + intros _. split; [reflexivity | ].
      intros status body E. now apply http_message_inj in E.
Qed.

Lemma triggerWorkflow_status_200_rejected :
  let res := {| statusCode := 200; chunks := ["{"; "}"] |} in
  let settled :=
    outcome (Fixtures.world_of (Responded res) Fixtures.not_found)
      (TriggerCodeql.triggerWorkflow Fixtures.token
         Fixtures.dispatch_options) in
  ((exists v, settled = Ok v) <-> statusCode res = 204%N) /\
  (statusCode res = 204%N ->
   settled = Ok (VObj [("success", VBool true); ("statusCode", VNum 204)])) /\
  (statusCode res <> 204%N ->
   settled = Throw (Error "HTTP 200: {}") /\
   forall status body,
     http_message status body = "HTTP 200: {}" ->
     status = 200%N /\ body = "{}").
Proof.
  intros res.
  eapply (triggerWorkflow_succeeds_only_on_204 Fixtures.token
            Fixtures.dispatch_options
            (Fixtures.world_of (Responded res) Fixtures.not_found) _ res);
    [left; reflexivity | reflexivity].
Defined.

(** C8.  A 401 or 403 keeps its status.  When the server answers with
    status 401 or 403, the transport of the workflow manager, each of its
    four operations and every dispatch whose request was made are all
    rejected (never fulfilled) with the error built from that very status
    and the response body, and no other status gives the same error: the
    status can be read back from it. *)
Theorem status_401_403_preserved
    (GITHUB_TOKEN : string) (JSON_parse : string -> option value)
    (w : world) (res : incoming) :
  (forall req, https w req = Responded res) ->
  statusCode res = 401%N \/ statusCode res = 403%N ->
  let error := Error (http_message (statusCode res) (collect (chunks res))) in
  (forall path method data,
     outcome w (WorkflowManager.makeRequest GITHUB_TOKEN JSON_parse
                  path method data) = Throw error) /\
  (forall workflowFile,
     outcome w (WorkflowManager.disableWorkflow GITHUB_TOKEN JSON_parse
                  workflowFile) = Throw error /\
     outcome w (WorkflowManager.enableWorkflow GITHUB_TOKEN JSON_parse
                  workflowFile) = Throw error /\
     outcome w (WorkflowManager.getWorkflowStatus GITHUB_TOKEN JSON_parse
                  workflowFile) = Throw error) /\
  outcome w (WorkflowManager.listWorkflows GITHUB_TOKEN JSON_parse)
    = Throw error /\
  (forall options req,
     In (EHttps req)
        (trace w (TriggerCodeql.triggerWorkflow GITHUB_TOKEN options)) ->
     outcome w (TriggerCodeql.triggerWorkflow GITHUB_TOKEN options)
       = Throw error) /\
  (forall status body,
     Error (http_message status body) = error -> status = statusCode res).
Proof.
  intros Hw Hst error.
  assert (H2xx : ((200 <=? statusCode res) && (statusCode res <? 300))%N
                 = false) by (destruct Hst as [-> | ->]; reflexivity).
  assert (H204 : statusCode res <> 204%N)
    by (destruct Hst as [-> | ->]; discriminate).
  assert (Hmk : forall path method data,
            outcome w (WorkflowManager.makeRequest GITHUB_TOKEN JSON_parse
                         path method data) = Throw error).
  { intros. rewrite makeRequest_outcome, Hw.
    now apply makeRequest_onEnd_not_2xx. }
  split; [exact Hmk | ].
  split; [ | split; [ | split]].
  - intros workflowFile.
    unfold WorkflowManager.disableWorkflow, WorkflowManager.enableWorkflow,
      WorkflowManager.getWorkflowStatus.
    rewrite !outcome_pbind_Done, !Hmk. repeat split.
  - unfold WorkflowManager.listWorkflows.
    rewrite outcome_pbind_Done, Hmk. reflexivity.
  - intros options req Hsent.
    destruct (triggerWorkflow_sent _ _ _ _ Hsent) as (_ & _ & _ & ->).
    rewrite Hw. now apply onEnd_not_204.
  - intros status body E.
    assert (E' : http_message status body =
                 http_message (statusCode res) (collect (chunks res)))
      by (unfold error in E; congruence).
    now apply http_message_inj in E'.
Qed.

Lemma status_403_preserved_example :
  let res := {| statusCode := 403; chunks := ["Forbidden"] |} in
  let w := Fixtures.world_of (Responded res) Fixtures.forbidden in
  let error := Error "HTTP 403: Forbidden" in
  (forall path method data,
     outcome w (WorkflowManager.makeRequest Fixtures.token parse_json
                  path method data) = Throw error) /\
  (forall workflowFile,
     outcome w (WorkflowManager.disableWorkflow Fixtures.token parse_json
                  workflowFile) = Throw error /\
     outcome w (WorkflowManager.enableWorkflow Fixtures.token parse_json
                  workflowFile) = Throw error /\
     outcome w (WorkflowManager.getWorkflowStatus Fixtures.token parse_json
                  workflowFile) = Throw error) /\
  outcome w (WorkflowManager.listWorkflows Fixtures.token parse_json)
    = Throw error /\
  (forall options req,
     In (EHttps req)
        (trace w (TriggerCodeql.triggerWorkflow Fixtures.token options)) ->
     outcome w (TriggerCodeql.triggerWorkflow Fixtures.token options)
       = Throw error) /\
  (forall status body,
     Error (http_message status body) = error -> status = 403%N).
Proof.
  intros res w.
  apply (status_401_403_preserved Fixtures.token parse_json w res).
  - reflexivity.
  - right. reflexivity.
Defined.

(** ** push-workflow.js: the existence check and the PUT *)

Section Push.

Import PushWorkflow.

Variable w : world.

Let workflowFilePath := path_resolve w WORKFLOW_PATH.
Let before_check : list event :=
  [EResolve WORKFLOW_PATH; EExists workflowFilePath; ERead workflowFilePath].

(** Every run of the try block, case by case. *)
Lemma pushWorkflow_try_run :
  run w pushWorkflow_try =
  if negb (fs_existsSync w workflowFilePath) then
    ([EResolve WORKFLOW_PATH; EExists workflowFilePath],
     Throw (Error ("Workflow file not found: " ++ workflowFilePath)))
  else
    match fs_readFileSync w workflowFilePath with
    | Throw e => (before_check, Throw e)
    | Ok workflowContent =>
        match checkExisting (repos_getContent w getContentParams) with
        | Throw e =>
            ((before_check ++ [EGetContent getContentParams])%list, Throw e)
        | Ok existingFile =>
            match prepare (base64 workflowContent) existingFile with
            | Throw e =>
                ((before_check ++ [EGetContent getContentParams])%list,
                 Throw e)
            | Ok requestData =>
                ((before_check ++
                  [EGetContent getContentParams; EPut requestData])%list,
                 finish (repos_createOrUpdateFileContents w requestData))
            end
        end
    end.
Proof.
  unfold pushWorkflow_try, before_check, workflowFilePath. simpl.
  destruct (fs_existsSync w _); simpl; [ | reflexivity].
  destruct (fs_readFileSync w _) as [workflowContent | e]; simpl;
    [ | reflexivity].
  destruct (checkExisting _) as [existingFile | e]; simpl; [ | reflexivity].
  destruct (prepare _ _) as [requestData | e]; simpl; reflexivity.
Qed.

Lemma pushWorkflow_trace : trace w pushWorkflow = trace w pushWorkflow_try.
Proof.
  apply trace_pbind_Done.
Qed.

Lemma pushWorkflow_outcome :
  outcome w pushWorkflow =
  match outcome w pushWorkflow_try with
  | Ok data => Returned data
  | Throw _ => Exited 1
  end.
Proof.
  unfold pushWorkflow. now rewrite outcome_pbind_Done.
Qed.

End Push.

(** Takes the branch of a run once the answers of the world are known. *)
Ltac branch H := cbv beta iota zeta delta [negb] in H.

(** A truthy value can be read from. *)
Lemma getProp_truthy (v : value) (k : string) :
  truthy v = true -> exists x, getProp v k = Ok x.
Proof.
  destruct v; simpl; intros H; try discriminate; eauto.
Qed.

Lemma getField_setField_same fields k x :
  getField (setField fields k x) k = Some x.
Proof.
  induction fields as [|[k' v] r IH]; simpl.
  - now rewrite String.eqb_refl.
  - destruct (String.eqb_spec k' k) as [E | NE]; simpl.
    + now rewrite String.eqb_refl.
    + destruct (String.eqb_spec k' k); [contradiction | exact IH].
Qed.

(** The request data never fails to be built; it has a sha exactly when
    the existing file is truthy, and then the one read from that file. *)
Lemma prepare_sha (contentBase64 : string) (existingFile : value) :
  exists requestData,
    PushWorkflow.prepare contentBase64 existingFile = Ok requestData /\
    (truthy existingFile = false ->
       hasOwn requestData "sha" = false /\
       getProp requestData "message" =
       Ok (VStr "Add CodeQL manual trigger workflow")) /\
    (truthy existingFile = true ->
       hasOwn requestData "sha" = true /\
       getProp requestData "sha" = getProp existingFile "sha" /\
       getProp requestData "message" =
       Ok (VStr "Update CodeQL manual trigger workflow")).
Proof.
  unfold PushWorkflow.prepare.
  destruct (truthy existingFile) eqn:T.
  - destruct (getProp_truthy existingFile "sha" T) as [sha Hsha].
    rewrite Hsha. simpl. eexists. split; [reflexivity | ].
    split; [discriminate | ]. intros _. repeat split.
  - eexists. split; [reflexivity | ].
    split; [ | discriminate]. intros _. split; reflexivity.
Qed.

(** The two runs of the script on an absent and on a forbidden file. *)
Example pushWorkflow_creates_when_absent :
  run (Fixtures.world_of Fixtures.refused Fixtures.not_found)
    PushWorkflow.pushWorkflow
  = ([EResolve ".github/workflows/codeql-manual.yml";
      EExists "/home/runner/test-codeql/.github/workflows/codeql-manual.yml";
      ERead "/home/runner/test-codeql/.github/workflows/codeql-manual.yml";
      EGetContent PushWorkflow.getContentParams;
      EPut (VObj [("owner", VStr "akhilesh1207");
                  ("repo", VStr "test-codeql");
                  ("path", VStr ".github/workflows/codeql-manual.yml");
                  ("message", VStr "Add CodeQL manual trigger workflow");
                  ("content", VStr "bmFtZTogQ29kZVFM");
                  ("branch", VStr "main")])],
     Returned
       (VObj [("content", VObj [("sha", VStr "9fceb02")]);
              ("commit",
               VObj [("sha", VStr "7638417");
                     ("html_url",
                      VStr "https://github.com/akhilesh1207/test-codeql/commit/7638417")])])).
Proof.
  vm_compute. reflexivity.
Qed.

Example pushWorkflow_stops_when_forbidden :
  run (Fixtures.world_of Fixtures.refused Fixtures.forbidden)
    PushWorkflow.pushWorkflow
  = ([EResolve ".github/workflows/codeql-manual.yml";
      EExists "/home/runner/test-codeql/.github/workflows/codeql-manual.yml";
      ERead "/home/runner/test-codeql/.github/workflows/codeql-manual.yml";
      EGetContent PushWorkflow.getContentParams],
     Exited 1).
Proof.
  vm_compute. reflexivity.
Qed.

(** C1.  The existence check before publishing.  With the workflow file on
    disk and readable, when the existence check fails with an error [e]:
    if the status of [e] is 404, the check yields no existing file (null,
    which is falsy), the request data is built without a sha, with the
    message of a creation, and the PUT is issued; for every other error the
    check throws [e] again, the try block ends with that same error, the
    script leaves with exit code 1 and no PUT is issued. *)
Theorem pushWorkflow_404_creates_other_errors_propagate
    (w : world) (e : thrown) (workflowContent : string) :
  fs_existsSync w (path_resolve w PushWorkflow.WORKFLOW_PATH) = true ->
  fs_readFileSync w (path_resolve w PushWorkflow.WORKFLOW_PATH)
    = Ok workflowContent ->
  repos_getContent w PushWorkflow.getContentParams = Throw e ->
  (status_of e = Some 404%N ->
     PushWorkflow.checkExisting (Throw e) = Ok VNull /\
     truthy VNull = false /\
     exists requestData,
       PushWorkflow.prepare (base64 workflowContent) VNull = Ok requestData /\
       hasOwn requestData "sha" = false /\
       getProp requestData "message" =
       Ok (VStr "Add CodeQL manual trigger workflow") /\
       In (EPut requestData) (trace w PushWorkflow.pushWorkflow)) /\
  (status_of e <> Some 404%N ->
     PushWorkflow.checkExisting (Throw e) = Throw e /\
     outcome w PushWorkflow.pushWorkflow_try = Throw e /\
     outcome w PushWorkflow.pushWorkflow = Exited 1 /\
     forall requestData,
       ~ In (EPut requestData) (trace w PushWorkflow.pushWorkflow)).
Proof.
  intros Hfound Hread Hget.
  assert (Hrun := pushWorkflow_try_run w).
  rewrite Hfound, Hread, Hget in Hrun. branch Hrun.
  split.
  - intros H404.
    assert (Hc : PushWorkflow.checkExisting (Throw e) = Ok VNull)
      by (unfold PushWorkflow.checkExisting; simpl; now rewrite H404).
    rewrite Hc in Hrun.
    destruct (prepare_sha (base64 workflowContent) VNull)
      as (requestData & Hp & Habsent & _).
    destruct (Habsent eq_refl) as [Hsha Hmsg].
    rewrite Hp in Hrun. branch Hrun.
    repeat split; auto.
    exists requestData. repeat split; auto.
    rewrite pushWorkflow_trace. unfold trace. rewrite Hrun. simpl. auto 6.
  - intros Hother.
    assert (Hc : PushWorkflow.checkExisting (Throw e) = Throw e).
    { unfold PushWorkflow.checkExisting. simpl.
      destruct (status_of e) as [s | ]; [ | reflexivity].
      destruct (N.eq_dec s 404) as [-> | NE]; [congruence | ].
      destruct s as [ | q]; [reflexivity | ].
      repeat (destruct q as [q | q | ]; try reflexivity); congruence. }
    rewrite Hc in Hrun. branch Hrun.
    split; [exact Hc | ].
    split; [unfold outcome; now rewrite Hrun | ].
    split.
    + rewrite pushWorkflow_outcome. unfold outcome. now rewrite Hrun.
    + intros requestData. rewrite pushWorkflow_trace. unfold trace.
      rewrite Hrun. simpl. intuition discriminate.
Qed.

Lemma pushWorkflow_forbidden_check_example :
  let w := Fixtures.world_of Fixtures.refused Fixtures.forbidden in
  let e := RequestError 403
             "Resource not accessible by personal access token" in
  (status_of e = Some 404%N ->
     PushWorkflow.checkExisting (Throw e) = Ok VNull /\
     truthy VNull = false /\
     exists requestData,
       PushWorkflow.prepare (base64 "name: CodeQL") VNull = Ok requestData /\
       hasOwn requestData "sha" = false /\
       getProp requestData "message" =
       Ok (VStr "Add CodeQL manual trigger workflow") /\
       In (EPut requestData) (trace w PushWorkflow.pushWorkflow)) /\
  (status_of e <> Some 404%N ->
     PushWorkflow.checkExisting (Throw e) = Throw e /\
     outcome w PushWorkflow.pushWorkflow_try = Throw e /\
     outcome w PushWorkflow.pushWorkflow = Exited 1 /\
     forall requestData,
       ~ In (EPut requestData) (trace w PushWorkflow.pushWorkflow)).
Proof.
  intros w e.
  apply (pushWorkflow_404_creates_other_errors_propagate
           w e "name: CodeQL"); reflexivity.
Defined.

(** C2.  The sha of the PUT is the one of the existence check.  Whenever a
    PUT with request data is issued, the existence check has produced an
    existing-file value; when that value is falsy (the file was seen absent:
    a 404, or a response without data) the request data has no sha
    property; when it is truthy the request data has a sha property and it
    reads exactly as the sha of that value.  In particular a failed check
    that is followed by a PUT sends no sha, and a check answered with data
    that carries a string sha sends that string. *)
Theorem pushWorkflow_put_sha_round_trip
    (w : world) (requestData : value) :
  In (EPut requestData) (trace w PushWorkflow.pushWorkflow) ->
  (exists existingFile,
     PushWorkflow.checkExisting
       (repos_getContent w PushWorkflow.getContentParams) = Ok existingFile /\
     (truthy existingFile = false -> hasOwn requestData "sha" = false) /\
     (truthy existingFile = true ->
        hasOwn requestData "sha" = true /\
        getProp requestData "sha" = getProp existingFile "sha")) /\
  (forall e,
     repos_getContent w PushWorkflow.getContentParams = Throw e ->
     status_of e = Some 404%N /\ hasOwn requestData "sha" = false) /\
  (forall response data token,
     repos_getContent w PushWorkflow.getContentParams = Ok response ->
     getProp response "data" = Ok data ->
     getProp data "sha" = Ok (VStr token) ->
     getProp requestData "sha" = Ok (VStr token)).
Proof.
  intros Hput. rewrite pushWorkflow_trace in Hput. unfold trace in Hput.
  rewrite pushWorkflow_try_run in Hput.
  destruct (fs_existsSync w _); simpl in Hput;
    [ | intuition discriminate].
  destruct (fs_readFileSync w _) as [workflowContent | e0]; simpl in Hput;
    [ | intuition discriminate].
  destruct (PushWorkflow.checkExisting _) as [existingFile | e0] eqn:Hc;
    simpl in Hput; [ | intuition discriminate].
  destruct (prepare_sha (base64 workflowContent) existingFile)
    as (rd & Hp & Habsent & Hpresent).
  rewrite Hp in Hput. simpl in Hput.
  assert (rd = requestData) as -> by (intuition congruence).
  clear Hput.
  split; [ | split].
  - exists existingFile. split; [reflexivity | ].
    split; intros T; [apply (Habsent T) | ].
    destruct (Hpresent T) as (? & ? & ?). auto.
  - intros e He. rewrite He in Hc. unfold PushWorkflow.checkExisting in Hc.
    simpl in Hc.
    destruct (status_of e) as [s | ]; [ | discriminate].
    destruct (N.eq_dec s 404) as [-> | NE].
    + injection Hc as <-. split; [reflexivity | ]. now apply Habsent.
    + exfalso. destruct s as [ | q]; [discriminate | ].
      repeat (destruct q as [q | q | ]; try discriminate). congruence.
  - intros response data token Hr Hd Hs.
    assert (T : truthy data = true)
      by (destruct data; simpl in Hs; try discriminate; reflexivity).
    rewrite Hr in Hc. unfold PushWorkflow.checkExisting in Hc. simpl in Hc.
    rewrite Hd in Hc. injection Hc as <-.
    destruct (Hpresent T) as (_ & -> & _). exact Hs.
Qed.

Lemma pushWorkflow_update_sends_found_sha :
  let w := Fixtures.world_of Fixtures.refused Fixtures.found in
  let requestData :=
    VObj [("owner", VStr "akhilesh1207"); ("repo", VStr "test-codeql");
          ("path", VStr ".github/workflows/codeql-manual.yml");
          ("message", VStr "Update CodeQL manual trigger workflow");
          ("content", VStr (base64 "name: CodeQL"));
          ("branch", VStr "main");
          ("sha", VStr "3d21ec53a331a6f037a91c368710b99387d012c1")] in
  (exists existingFile,
     PushWorkflow.checkExisting
       (repos_getContent w PushWorkflow.getContentParams) = Ok existingFile /\
     (truthy existingFile = false -> hasOwn requestData "sha" = false) /\
     (truthy existingFile = true ->
        hasOwn requestData "sha" = true /\
        getProp requestData "sha" = getProp existingFile "sha")) /\
  (forall e,
     repos_getContent w PushWorkflow.getContentParams = Throw e ->
     status_of e = Some 404%N /\ hasOwn requestData "sha" = false) /\
  (forall response data token,
     repos_getContent w PushWorkflow.getContentParams = Ok response ->
     getProp response "data" = Ok data ->
     getProp data "sha" = Ok (VStr token) ->
     getProp requestData "sha" = Ok (VStr token)).
Proof.
  intros w requestData.
  apply (pushWorkflow_put_sha_round_trip w requestData).
  vm_compute. auto 6.
Defined.

(** C5.  The existence check comes before the PUT, and a failed check
    stops the script.  In every run, a PUT at some position of the trace has
    the existence check at a strictly earlier position, and the PUT is the
    last call.  When the existence check fails with an error whose status
    is not 404 (a transport failure has no status 404 either), the trace
    stops at the existence check, no PUT is issued and the script leaves
    with exit code 1 whenever the check was reached at all. *)
Theorem pushWorkflow_check_before_put (w : world) :
  (forall i requestData,
     nth_error (trace w PushWorkflow.pushWorkflow) i
       = Some (EPut requestData) ->
     (exists j, (j < i)%nat /\
        nth_error (trace w PushWorkflow.pushWorkflow) j
          = Some (EGetContent PushWorkflow.getContentParams)) /\
     nth_error (trace w PushWorkflow.pushWorkflow) (S i) = None) /\
  (forall e,
     repos_getContent w PushWorkflow.getContentParams = Throw e ->
     status_of e <> Some 404%N ->
     (forall requestData,
        ~ In (EPut requestData) (trace w PushWorkflow.pushWorkflow)) /\
     (In (EGetContent PushWorkflow.getContentParams)
         (trace w PushWorkflow.pushWorkflow) ->
      last (trace w PushWorkflow.pushWorkflow) (EResolve "")
        = EGetContent PushWorkflow.getContentParams /\
      outcome w PushWorkflow.pushWorkflow = Exited 1)).
Proof.
  rewrite pushWorkflow_trace, pushWorkflow_outcome. unfold trace, outcome.
  rewrite pushWorkflow_try_run.
  destruct (fs_existsSync w _); simpl.
  2:{ split.
      - intros i rd H. do 3 (destruct i; simpl in H; try discriminate).
      - intros e _ _. split; [intuition discriminate | ].
        intuition discriminate. }
  destruct (fs_readFileSync w _) as [workflowContent | e0]; simpl.
  2:{ split.
      - intros i rd H. do 4 (destruct i; simpl in H; try discriminate).
      - intros e _ _. split; intuition discriminate. }
  destruct (PushWorkflow.checkExisting _) as [existingFile | e0] eqn:Hc;
    simpl.
  2:{ split.
      - intros i rd H. do 5 (destruct i; simpl in H; try discriminate).
      - intros e _ _. split; [intuition discriminate | auto]. }
  destruct (prepare_sha (base64 workflowContent) existingFile)
    as (rd & -> & _). simpl.
  split.
  - intros i rd' H. do 5 (destruct i; simpl in H; try discriminate).
    + split; [ | reflexivity]. exists 3%nat. split; [lia | reflexivity].
    + destruct i; discriminate.
  - intros e He Hother. exfalso.
    rewrite He in Hc. unfold PushWorkflow.checkExisting in Hc. simpl in Hc.
    destruct (status_of e) as [s | ]; [ | discriminate].
    destruct (N.eq_dec s 404) as [-> | NE]; [congruence | ].
    destruct s as [ | q]; [discriminate | ].
    repeat (destruct q as [q | q | ]; try discriminate). congruence.
Qed.

Lemma pushWorkflow_connection_reset_example :
  let w := Fixtures.world_of Fixtures.refused
             (Throw (SystemError "ECONNRESET")) in
  (forall i requestData,
     nth_error (trace w PushWorkflow.pushWorkflow) i
       = Some (EPut requestData) ->
     (exists j, (j < i)%nat /\
        nth_error (trace w PushWorkflow.pushWorkflow) j
          = Some (EGetContent PushWorkflow.getContentParams)) /\
     nth_error (trace w PushWorkflow.pushWorkflow) (S i) = None) /\
  (forall e,
     repos_getContent w PushWorkflow.getContentParams = Throw e ->
     status_of e <> Some 404%N ->
     (forall requestData,
        ~ In (EPut requestData) (trace w PushWorkflow.pushWorkflow)) /\
     (In (EGetContent PushWorkflow.getContentParams)
         (trace w PushWorkflow.pushWorkflow) ->
      last (trace w PushWorkflow.pushWorkflow) (EResolve "")
        = EGetContent PushWorkflow.getContentParams /\
      outcome w PushWorkflow.pushWorkflow = Exited 1)).
Proof.
  intros w. apply (pushWorkflow_check_before_put w).
Defined.

(** ** workflow-manager.js: what a 2xx response resolves with *)

Lemma is_2xx (st : N) :
  (200 <= st < 300)%N -> ((200 <=? st) && (st <? 300))%N = true.
Proof.
  intros [H1 H2]. apply andb_true_intro.
  split; [now apply N.leb_le | now apply N.ltb_lt].
Qed.

Lemma makeRequest_onEnd_2xx (JSON_parse : string -> option value)
    (res : incoming) :
  (200 <= statusCode res < 300)%N ->
  WorkflowManager.makeRequest_onEnd JSON_parse res =
  Ok (VObj [("statusCode", VNum (Z.of_N (statusCode res)));
            ("data",
             WorkflowManager.resolved_data JSON_parse
               (collect (chunks res)))]).
Proof.
  intros H. unfold WorkflowManager.makeRequest_onEnd.
  now rewrite (is_2xx _ H).
Qed.

(** C4, as the code has it.  A 2xx response resolves the transport with
    the status and a body that is: the empty object when the response text
    is empty; otherwise the parsed text when it parses as JSON; otherwise
    the raw text. *)
Theorem makeRequest_2xx_resolves
    (GITHUB_TOKEN : string) (JSON_parse : string -> option value)
    (w : world) (path : string) (method data : option string)
    (res : incoming) :
  https w (WorkflowManager.makeRequest_options GITHUB_TOKEN path method data)
    = Responded res ->
  (200 <= statusCode res < 300)%N ->
  let responseData := collect (chunks res) in
  exists body,
    outcome w (WorkflowManager.makeRequest GITHUB_TOKEN JSON_parse
                 path method data)
    = Ok (VObj [("statusCode", VNum (Z.of_N (statusCode res)));
                ("data", body)]) /\
    (responseData = "" -> body = VObj []) /\
    (responseData <> "" ->
     forall parsed, JSON_parse responseData = Some parsed -> body = parsed) /\
    (responseData <> "" ->
     JSON_parse responseData = None -> body = VStr responseData).
Proof.
  intros Hres Hst responseData.
  exists (WorkflowManager.resolved_data JSON_parse responseData).
  split.
  - rewrite makeRequest_outcome, Hres. now apply makeRequest_onEnd_2xx.
  - unfold WorkflowManager.resolved_data.
    destruct (String.eqb_spec responseData "") as [E | NE]; simpl.
    + repeat split; auto; contradiction.
    + split; [contradiction | ].
      split; intros _.
      * intros parsed ->. reflexivity.
      * intros ->. reflexivity.
Qed.

Lemma makeRequest_2xx_raw_text_example :
  let res := {| statusCode := 200; chunks := ["<html>"; "</html>"] |} in
  let w := Fixtures.world_of (Responded res) Fixtures.not_found in
  let responseData := collect (chunks res) in
  exists body,
    outcome w (WorkflowManager.makeRequest Fixtures.token parse_json
                 "/repos/akhilesh1207/test-codeql/actions/workflows"
                 None None)
    = Ok (VObj [("statusCode", VNum (Z.of_N (statusCode res)));
                ("data", body)]) /\
    (responseData = "" -> body = VObj []) /\
    (responseData <> "" ->
     forall parsed, parse_json responseData = Some parsed -> body = parsed) /\
    (responseData <> "" ->
     parse_json responseData = None -> body = VStr responseData).
Proof.
  intros res w.
  apply (makeRequest_2xx_resolves Fixtures.token parse_json w
           "/repos/akhilesh1207/test-codeql/actions/workflows" None None res).
  - reflexivity.
  - simpl. lia.
Defined.

(** C4, as stated, fails on an empty body: a 204 response without text
    resolves with the empty object, not with the raw (empty) text, although
    the empty text does not parse as JSON. *)
Lemma makeRequest_empty_body_resolves_empty_object :
  outcome (Fixtures.world_of (Fixtures.response 204 []) Fixtures.not_found)
    (WorkflowManager.makeRequest Fixtures.token parse_json
       "/repos/akhilesh1207/test-codeql/actions/workflows/codeql.yml/enable"
       (Some "PUT") None)
  = Ok (VObj [("statusCode", VNum 204); ("data", VObj [])]) /\
  parse_json (collect []) = None /\
  VObj [] <> VStr (collect []).
Proof.
  repeat split. discriminate.
Qed.

(** ** workflow-manager.js: the listing *)

(** The listing hands back the response it was given, and only when the
    data of that response has an array as its workflows. *)
Lemma listWorkflows_then_Ok (r : result value) (response : value) :
  WorkflowManager.listWorkflows_then r = Ok response ->
  r = Ok response /\
  exists data items,
    getProp response "data" = Ok data /\
    getProp data "workflows" = Ok (VArr items).
Proof.
  unfold WorkflowManager.listWorkflows_then, WorkflowManager.rethrow.
  destruct r as [response0 | e]; simpl; [ | discriminate].
  destruct (getProp response0 "data") as [data | e] eqn:Hd; simpl;
    [ | discriminate].
  destruct (getProp data "workflows") as [workflows | e] eqn:Hw; simpl;
    [ | discriminate].
  destruct (WorkflowManager.printed workflows "length") as [[] | e]; simpl;
    [ | discriminate].
  destruct workflows; simpl; try discriminate.
  destruct ((fix each (l : list value) (index : nat) := _) items 0%nat)
    as [[] | e]; simpl; [ | discriminate].
  intros H. injection H as <-.
  split; [reflexivity | ]. exists data, items. auto.
Qed.


(** A property of an object is printed when its value converts to a
    string; a missing one prints as undefined. *)
Lemma printed_VObj (fields : list (string * value)) (k : string) :
  (forall x, getField fields k = Some x -> exists t, ToString x = Ok t) ->
  WorkflowManager.printed (VObj fields) k = Ok tt.
Proof.
  intros H. unfold WorkflowManager.printed. simpl.
  destruct (getField fields k) as [x | ].
  - destruct (H x eq_refl) as [t ->]. reflexivity.
  - reflexivity.
Qed.





(** The listing of the two workflows returns them as they were sent. *)
Example listWorkflows_returns_the_two_workflows :
  outcome
    (Fixtures.world_of
       (Fixtures.response 200 [Fixtures.text_of Fixtures.two_workflows])
       Fixtures.not_found)
    (WorkflowManager.listWorkflows Fixtures.token parse_json)
  = Ok (VObj [("statusCode", VNum 200); ("data", Fixtures.two_workflows)]).
Proof.
  vm_compute. reflexivity.
Qed.

(** An empty 200 response and a JSON object without workflows both end the
    listing at the read of the length. *)
Example listWorkflows_throws_without_workflows :
  outcome
    (Fixtures.world_of (Fixtures.response 200 []) Fixtures.not_found)
    (WorkflowManager.listWorkflows Fixtures.token parse_json)
  = Throw (TypeError_read VUndefined "length") /\
  outcome
    (Fixtures.world_of
       (Fixtures.response 200
          [Fixtures.text_of (VObj [("message", VStr "Not Found")])])
       Fixtures.not_found)
    (WorkflowManager.listWorkflows Fixtures.token parse_json)
  = Throw (TypeError_read VUndefined "length").
Proof.
  split; vm_compute; reflexivity.
Qed.

(** ** trigger-codeql.js: the dispatch payload *)

(** The value of an option as the caller supplied it. *)
Lemma getProp_VObj (fields : list (string * value)) (k : string) :
  getProp (VObj fields) k =
  Ok (match getField fields k with Some x => x | None => VUndefined end).
Proof.
  reflexivity.
Qed.

Lemma withDefault_supplied (v d : value) :
  v <> VUndefined -> withDefault v d = v.
Proof.
  destruct v; simpl; congruence.
Qed.

(** The payload of an options object: every run of the destructuring
    succeeds, and only the conversion of the upload flag can throw. *)
Lemma dispatchBody_VObj (fields : list (string * value)) :
  let supplied k :=
    match getField fields k with Some x => x | None => VUndefined end in
  TriggerCodeql.dispatchBody (VObj fields) =
  (upload_sarif <- toString (withDefault (supplied "uploadSarif")
                               (VBool true)) ;;
   Ok (VObj [("ref", withDefault (supplied "ref") (VStr "main"));
             ("inputs",
              VObj [("languages",
                     withDefault (supplied "languages")
                       (VStr "javascript-typescript,actions"));
                    ("queries",
                     withDefault (supplied "queries")
                       (VStr "security-extended"));
                    ("upload_sarif", VStr upload_sarif)])])).
Proof.
  reflexivity.
Qed.

(** C10.  The default dispatch.  Invoked without options (no argument, or
    an empty options object), the script builds the payload with ref main
    and the inputs languages javascript-typescript,actions, queries
    security-extended and upload_sarif true as a string; it issues exactly
    one request, a POST to the dispatch endpoint of the workflow whose
    written body is the JSON text of that payload; and for every options
    object whose upload flag is a boolean, upload_sarif is sent as the
    string form of that boolean. *)
Theorem triggerWorkflow_default_dispatch
    (GITHUB_TOKEN : string) (w : world) :
  let defaults :=
    VObj [("ref", VStr "main");
          ("inputs",
           VObj [("languages", VStr "javascript-typescript,actions");
                 ("queries", VStr "security-extended");
                 ("upload_sarif", VStr "true")])] in
  TriggerCodeql.dispatchBody VUndefined = Ok defaults /\
  TriggerCodeql.dispatchBody (VObj []) = Ok defaults /\
  (exists req,
     TriggerCodeql.requestOptions GITHUB_TOKEN VUndefined = Ok req /\
     TriggerCodeql.requestOptions GITHUB_TOKEN (VObj []) = Ok req /\
     method req = "POST" /\
     path req =
     "/repos/akhilesh1207/test-codeql/actions/workflows/codeql-manual.yml/dispatches" /\
     written req = Some Fixtures.default_dispatch_text /\
     trace w (TriggerCodeql.triggerWorkflow GITHUB_TOKEN VUndefined)
     = [EHttps req]) /\
  (forall fields b,
     getField fields "uploadSarif" = Some (VBool b) ->
     exists body,
       TriggerCodeql.dispatchBody (VObj fields) = Ok body /\
       (inputs <- getProp body "inputs" ;; getProp inputs "upload_sarif")
       = Ok (VStr (if b then "true" else "false"))).
Proof.
  intros defaults.
  split; [reflexivity | ]. split; [reflexivity | ]. split.
  - eexists. split; [reflexivity | ].
    repeat split.
    unfold trace. rewrite triggerWorkflow_run. reflexivity.
  - intros fields b Hb. rewrite dispatchBody_VObj. cbv zeta. rewrite Hb.
    destruct b; simpl; eexists; split; reflexivity.
Qed.

(** C7, as the code has it.  Of the options of a dispatch only ref,
    languages, queries and uploadSarif reach the payload: the payload is
    the object with ref and the three inputs languages, queries and
    upload_sarif and nothing else; a supplied ref, languages or queries
    value is forwarded unchanged and an absent one is replaced by its
    default; the upload flag is forwarded under the name upload_sarif as
    its string form (a boolean becomes the text true or false, a string
    stays as it is); and the body written to the request is the JSON text
    of that payload. *)
Theorem dispatchBody_forwards_known_options
    (GITHUB_TOKEN : string) (fields : list (string * value))
    (body : value) :
  TriggerCodeql.dispatchBody (VObj fields) = Ok body ->
  let supplied k :=
    match getField fields k with Some x => x | None => VUndefined end in
  (exists upload_sarif,
     toString (withDefault (supplied "uploadSarif") (VBool true))
       = Ok upload_sarif /\
     (forall b, supplied "uploadSarif" = VBool b ->
                upload_sarif = if b then "true" else "false") /\
     (forall s, supplied "uploadSarif" = VStr s -> upload_sarif = s) /\
     body =
     VObj [("ref", withDefault (supplied "ref") (VStr "main"));
           ("inputs",
            VObj [("languages",
                   withDefault (supplied "languages")
                     (VStr "javascript-typescript,actions"));
                  ("queries",
                   withDefault (supplied "queries")
                     (VStr "security-extended"));
                  ("upload_sarif", VStr upload_sarif)])]) /\
  (forall v, supplied "ref" = v -> v <> VUndefined ->
             getProp body "ref" = Ok v) /\
  (forall k v, k = "languages" \/ k = "queries" ->
               supplied k = v -> v <> VUndefined ->
               (inputs <- getProp body "inputs" ;; getProp inputs k) = Ok v) /\
  (exists req,
     TriggerCodeql.requestOptions GITHUB_TOKEN (VObj fields) = Ok req /\
     option_map Some (written req) = Some (JSON_stringify body)).
Proof.
  intros Hbody supplied.
  rewrite dispatchBody_VObj in Hbody. cbv zeta in Hbody.
  fold (supplied "uploadSarif") (supplied "ref") (supplied "languages")
    (supplied "queries") in Hbody.
  destruct (toString (withDefault (supplied "uploadSarif") (VBool true)))
    as [upload_sarif | e] eqn:Hts; simpl in Hbody; [ | discriminate].
  injection Hbody as <-.
  split; [ | split; [ | split]].
  - exists upload_sarif. split; [reflexivity | ].
    split; [ | split; [ | reflexivity]].
    + intros b Hb. rewrite Hb in Hts. destruct b; simpl in Hts; congruence.
    + intros s0 Hs. rewrite Hs in Hts. simpl in Hts. congruence.
  - intros v Hv Hdef. simpl. rewrite Hv.
    now rewrite withDefault_supplied.
  - intros k v [-> | ->] Hv Hdef; simpl; rewrite Hv;
      now rewrite withDefault_supplied.
  - unfold TriggerCodeql.requestOptions.
    rewrite dispatchBody_VObj. cbv zeta.
    fold (supplied "uploadSarif") (supplied "ref") (supplied "languages")
      (supplied "queries").
    rewrite Hts. simpl. eexists. split; reflexivity.
Qed.

Lemma dispatchBody_forwards_example :
  let fields :=
    [("languages", VStr "python,javascript-typescript");
     ("queries", VStr "security-extended");
     ("uploadSarif", VBool true);
     ("ref", VStr "main")] in
  let body :=
    VObj [("ref", VStr "main");
          ("inputs",
           VObj [("languages", VStr "python,javascript-typescript");
                 ("queries", VStr "security-extended");
                 ("upload_sarif", VStr "true")])] in
  let supplied k :=
    match getField fields k with Some x => x | None => VUndefined end in
  (exists upload_sarif,
     toString (withDefault (supplied "uploadSarif") (VBool true))
       = Ok upload_sarif /\
     (forall b, supplied "uploadSarif" = VBool b ->
                upload_sarif = if b then "true" else "false") /\
     (forall s, supplied "uploadSarif" = VStr s -> upload_sarif = s) /\
     body =
     VObj [("ref", withDefault (supplied "ref") (VStr "main"));
           ("inputs",
            VObj [("languages",
                   withDefault (supplied "languages")
                     (VStr "javascript-typescript,actions"));
                  ("queries",
                   withDefault (supplied "queries")
                     (VStr "security-extended"));
                  ("upload_sarif", VStr upload_sarif)])]) /\
  (forall v, supplied "ref" = v -> v <> VUndefined ->
             getProp body "ref" = Ok v) /\
  (forall k v, k = "languages" \/ k = "queries" ->
               supplied k = v -> v <> VUndefined ->
               (inputs <- getProp body "inputs" ;; getProp inputs k) = Ok v) /\
  (exists req,
     TriggerCodeql.requestOptions Fixtures.token (VObj fields) = Ok req /\
     option_map Some (written req) = Some (JSON_stringify body)).
Proof.
  intros fields body.
  apply (dispatchBody_forwards_known_options Fixtures.token fields body).
  reflexivity.
Defined.

(** C7, as stated, fails: a boolean upload flag does not appear unchanged
    (false is sent as the text false), and an input under any other name is
    not forwarded at all. *)
Lemma dispatch_changes_flag_and_drops_other_inputs :
  let options :=
    VObj [("uploadSarif", VBool false); ("debug", VStr "on")] in
  (body <- TriggerCodeql.dispatchBody options ;;
   inputs <- getProp body "inputs" ;;
   getProp inputs "upload_sarif") = Ok (VStr "false") /\
  VStr "false" <> VBool false /\
  (body <- TriggerCodeql.dispatchBody options ;;
   inputs <- getProp body "inputs" ;;
   getProp inputs "uploadSarif") = Ok VUndefined /\
  (body <- TriggerCodeql.dispatchBody options ;;
   inputs <- getProp body "inputs" ;;
   getProp inputs "debug") = Ok VUndefined /\
  (req <- TriggerCodeql.requestOptions Fixtures.token options ;;
   Ok (written req))
  = Ok (Some ("{" ++ in_quotes "ref" ++ ":" ++ in_quotes "main" ++ ","
              ++ in_quotes "inputs" ++ ":{"
              ++ in_quotes "languages" ++ ":"
              ++ in_quotes "javascript-typescript,actions" ++ ","
              ++ in_quotes "queries" ++ ":"
              ++ in_quotes "security-extended" ++ ","
              ++ in_quotes "upload_sarif" ++ ":" ++ in_quotes "false"
              ++ "}}")).
Proof.
  repeat split. discriminate.
Qed.

(** ** Content-Length *)

Lemma utf16_length_ascii (s : string) :
  all_ascii s = true -> utf16_length s = byteLength s.
Proof.
  induction s as [|c r IH]; simpl; [reflexivity | ].
  intros H. apply andb_prop in H as [Hc Hr].
  unfold utf16_units. rewrite Hc. simpl. f_equal. now apply IH.
Qed.

(** The transport of the workflow manager announces the byte length of
    what it writes. *)
Lemma makeRequest_content_length
    (GITHUB_TOKEN path : string) (method data : option string) (s : string) :
  written (WorkflowManager.makeRequest_options GITHUB_TOKEN path method data)
    = Some s ->
  getField
    (headers (WorkflowManager.makeRequest_options GITHUB_TOKEN
                path method data)) "Content-Length"
  = Some (VNum (Z.of_nat (byteLength s))).
Proof.
  unfold WorkflowManager.makeRequest_options. simpl.
  destruct data as [d | ]; [ | discriminate].
  destruct (d =? ""); [discriminate | ].
  intros H. injection H as ->. reflexivity.
Qed.

(** The dispatch script announces the number of UTF-16 code units of what
    it writes, which is the byte length only for seven-bit texts. *)
Lemma triggerWorkflow_content_length
    (GITHUB_TOKEN : string) (options : value) (req : request) :
  TriggerCodeql.requestOptions GITHUB_TOKEN options = Ok req ->
  exists data,
    written req = Some data /\
    getField (headers req) "Content-Length"
    = Some (VNum (Z.of_nat (utf16_length data))) /\
    (all_ascii data = true ->
     getField (headers req) "Content-Length"
     = Some (VNum (Z.of_nat (byteLength data)))).
Proof.
  unfold TriggerCodeql.requestOptions.
  destruct (TriggerCodeql.dispatchBody options) as [body | e]; simpl;
    [ | discriminate].
  destruct (JSON_stringify body) as [data | ]; simpl; [ | discriminate].
  intros H. injection H as <-. simpl.
  exists data. split; [reflexivity | ]. split; [reflexivity | ].
  intros Ha. now rewrite utf16_length_ascii.
Qed.

(** C6 at a non-ASCII input.  For the ref of two bytes more than letters
    the dispatch script writes 129 bytes and announces 127. *)
Theorem triggerWorkflow_content_length_short_on_non_ascii :
  exists req data,
    TriggerCodeql.requestOptions Fixtures.token
      (VObj [("ref", VStr "señal-café")]) = Ok req /\
    written req = Some data /\
    getField (headers req) "Content-Length" = Some (VNum 127) /\
    Z.of_nat (byteLength data) = 129%Z /\
    Z.of_nat (utf16_length data) = 127%Z.
Proof.
  do 2 eexists. split; [reflexivity | ]. repeat split.
Qed.

(* ================================================================== *)
(** * Further properties of the three scripts *)
(* ================================================================== *)

(** ** workflow-manager.js: the transport and the four operations *)

(** X1.  The transport makes exactly one request and settles on its one
    answer: an 'error' event rejects with the error of the event, as it is;
    a response fulfils the promise exactly when its status is in 200..299,
    and every other status rejects with the error made of that status and
    the response text. *)
Theorem makeRequest_settles
    (GITHUB_TOKEN : string) (JSON_parse : string -> option value)
    (w : world) (path : string) (method data : option string) :
  let req :=
    WorkflowManager.makeRequest_options GITHUB_TOKEN path method data in
  let p :=
    WorkflowManager.makeRequest GITHUB_TOKEN JSON_parse path method data in
  trace w p = [EHttps req] /\
  (forall error, https w req = Failed error -> outcome w p = Throw error) /\
  (forall res,
     https w req = Responded res ->
     ((exists v, outcome w p = Ok v) <-> (200 <= statusCode res < 300)%N) /\
     ((statusCode res < 200 \/ 300 <= statusCode res)%N ->
      outcome w p =
      Throw (Error (http_message (statusCode res) (collect (chunks res)))))).
Proof.
  intros req p. split; [apply makeRequest_trace | ].
  split.
  - intros error H. unfold p. rewrite makeRequest_outcome.
    fold req. now rewrite H.
  - intros res H. unfold p. rewrite makeRequest_outcome. fold req.
    rewrite H.
    destruct (N.le_gt_cases 200 (statusCode res)) as [Hlo | Hlo];
      [destruct (N.lt_ge_cases (statusCode res) 300) as [Hhi | Hhi] | ].
    + rewrite makeRequest_onEnd_2xx by lia.
      split; [split; [lia | eauto] | lia].
    + assert (E : ((200 <=? statusCode res) && (statusCode res <? 300))%N
                  = false).
      { apply andb_false_iff. right. now apply N.ltb_ge. }
      rewrite (makeRequest_onEnd_not_2xx _ _ E).
      split; [split; [intros [v Hv]; discriminate | lia] | reflexivity].
    + assert (E : ((200 <=? statusCode res) && (statusCode res <? 300))%N
                  = false).
      { apply andb_false_iff. left. now apply N.leb_gt. }
      rewrite (makeRequest_onEnd_not_2xx _ _ E).
      split; [split; [intros [v Hv]; discriminate | lia] | reflexivity].
Qed.

(** X2.  Disabling and enabling a workflow each send one PUT without a
    body (and so without a Content-Length) to the disable, respectively
    enable, path of that workflow; each settles as the transport does: it
    hands on the response of every 2xx status and the error of every other
    answer. *)
Theorem disable_enable_settle
    (GITHUB_TOKEN : string) (JSON_parse : string -> option value)
    (w : world) (workflowFile : string) :
  let request suffix :=
    WorkflowManager.makeRequest_options GITHUB_TOKEN
      ("/repos/akhilesh1207/test-codeql/actions/workflows/"
       ++ workflowFile ++ suffix) (Some "PUT") None in
  let transport suffix :=
    WorkflowManager.makeRequest GITHUB_TOKEN JSON_parse
      ("/repos/akhilesh1207/test-codeql/actions/workflows/"
       ++ workflowFile ++ suffix) (Some "PUT") None in
  let disable :=
    WorkflowManager.disableWorkflow GITHUB_TOKEN JSON_parse workflowFile in
  let enable :=
    WorkflowManager.enableWorkflow GITHUB_TOKEN JSON_parse workflowFile in
  trace w disable = [EHttps (request "/disable")] /\
  trace w enable = [EHttps (request "/enable")] /\
  (forall suffix,
     method (request suffix) = "PUT" /\
     written (request suffix) = None /\
     getField (headers (request suffix)) "Content-Length" = None) /\
  outcome w disable = outcome w (transport "/disable") /\
  outcome w enable = outcome w (transport "/enable") /\
  (forall res,
     https w (request "/disable") = Responded res ->
     (200 <= statusCode res < 300)%N ->
     exists data,
       outcome w disable =
       Ok (VObj [("statusCode", VNum (Z.of_N (statusCode res)));
                 ("data", data)])).
Proof.
  intros request transport disable enable.
  assert (Hre : forall r : result value, WorkflowManager.rethrow r = r)
    by (intros [v | e]; reflexivity).
  unfold disable, enable, WorkflowManager.disableWorkflow,
    WorkflowManager.enableWorkflow.
  rewrite !trace_pbind_Done, !outcome_pbind_Done, !makeRequest_trace, !Hre.
  repeat split.
  intros res Hres Hst.
  rewrite makeRequest_outcome.
  change (WorkflowManager.workflow_path workflowFile "/disable")
    with ("/repos/akhilesh1207/test-codeql/actions/workflows/"
          ++ workflowFile ++ "/disable").
  fold (request "/disable"). rewrite Hres.
  rewrite makeRequest_onEnd_2xx by assumption. eauto.
Qed.

(** X3.  The status of a workflow.  On a 2xx response the operation
    hands back the very response the transport resolved with, or throws;
    it throws at the read of the name when the data is null (the body was
    the JSON text null); it returns for an empty body, whose data is the
    empty object, with every detail printed as undefined; and it returns
    for every data object whose six printed details, where present,
    convert to a string. *)
Theorem getWorkflowStatus_settles
    (GITHUB_TOKEN : string) (JSON_parse : string -> option value)
    (w : world) (workflowFile : string) (res : incoming) :
  https w (WorkflowManager.makeRequest_options GITHUB_TOKEN
             (WorkflowManager.workflow_path workflowFile "") None None)
    = Responded res ->
  (200 <= statusCode res < 300)%N ->
  let data :=
    WorkflowManager.resolved_data JSON_parse (collect (chunks res)) in
  let response :=
    VObj [("statusCode", VNum (Z.of_N (statusCode res))); ("data", data)] in
  let settled :=
    outcome w (WorkflowManager.getWorkflowStatus GITHUB_TOKEN JSON_parse
                 workflowFile) in
  (forall r, settled = Ok r -> r = response) /\
  (data = VNull -> settled = Throw (TypeError_read VNull "name")) /\
  (collect (chunks res) = "" -> settled = Ok response) /\
  (forall fields,
     data = VObj fields ->
     (forall k x,
        In k ["name"; "state"; "path"; "id"; "created_at"; "updated_at"] ->
        getField fields k = Some x -> exists t, ToString x = Ok t) ->
     settled = Ok response).
Proof.
  intros Hres Hst data response settled.
  assert (Hsettled :
            settled = WorkflowManager.getWorkflowStatus_then (Ok response)).
  { unfold settled, WorkflowManager.getWorkflowStatus.
    rewrite outcome_pbind_Done, makeRequest_outcome, Hres.
    now rewrite makeRequest_onEnd_2xx. }
  assert (Hobj : forall fields,
            data = VObj fields ->
            (forall k x,
               In k ["name"; "state"; "path"; "id"; "created_at";
                     "updated_at"] ->
               getField fields k = Some x -> exists t, ToString x = Ok t) ->
            settled = Ok response).
  { intros fields Hd Hp. rewrite Hsettled.
    unfold WorkflowManager.getWorkflowStatus_then, response. simpl.
    rewrite Hd.
    rewrite !printed_VObj; [reflexivity | ..];
      intros x Hx; eapply Hp; try exact Hx; simpl; auto 7. }
  split; [ | split; [ | split; [ | exact Hobj]]].
  - intros r H. rewrite Hsettled in H.
    unfold WorkflowManager.getWorkflowStatus_then, WorkflowManager.rethrow
      in H.
    simpl in H.
    repeat match type of H with
           | context [WorkflowManager.printed ?v ?k] =>
               destruct (WorkflowManager.printed v k) as [[] | ?];
               simpl in H; [ | discriminate]
           end.
    now injection H as <-.
  - intros Hd. rewrite Hsettled.
    unfold WorkflowManager.getWorkflowStatus_then, response. simpl.
    rewrite Hd. reflexivity.
  - intros Hempty. apply (Hobj []).
    + unfold data, WorkflowManager.resolved_data. now rewrite Hempty.
    + intros k x _ Hx. discriminate.
Qed.

Lemma getWorkflowStatus_one_workflow_example :
  let res := {| statusCode := 200;
                chunks := [Fixtures.text_of Fixtures2.one_workflow] |} in
  let w := Fixtures.world_of (Responded res) Fixtures.not_found in
  let data := WorkflowManager.resolved_data parse_json (collect (chunks res)) in
  let response :=
    VObj [("statusCode", VNum (Z.of_N (statusCode res))); ("data", data)] in
  let settled :=
    outcome w (WorkflowManager.getWorkflowStatus Fixtures.token parse_json
                 "codeql.yml") in
  (forall r, settled = Ok r -> r = response) /\
  (data = VNull -> settled = Throw (TypeError_read VNull "name")) /\
  (collect (chunks res) = "" -> settled = Ok response) /\
  (forall fields,
     data = VObj fields ->
     (forall k x,
        In k ["name"; "state"; "path"; "id"; "created_at"; "updated_at"] ->
        getField fields k = Some x -> exists t, ToString x = Ok t) ->
     settled = Ok response).
Proof.
  intros res w.
  apply (getWorkflowStatus_settles Fixtures.token parse_json w
           "codeql.yml" res).
  - reflexivity.
  - simpl. lia.
Defined.

(** ** workflow-manager.js: when the listing returns *)

(** An entry of the listing that the callback prints without throwing: it
    is neither undefined nor null and its four printed details convert to
    a string. *)
Lemma listWorkflows_each_Ok (workflow : value) (index : nat) :
  WorkflowManager.listWorkflows_each workflow index = Ok tt <->
  workflow <> VUndefined /\ workflow <> VNull /\
  forall k, In k ["name"; "path"; "state"; "id"] ->
            forall x, getProp workflow k = Ok x -> exists t, ToString x = Ok t.
Proof.
  unfold WorkflowManager.listWorkflows_each, WorkflowManager.printed.
  split.
  - intros H.
    destruct (getProp workflow "state") as [vs | e] eqn:Es; simpl in H;
      [ | discriminate].
    destruct (getProp workflow "name") as [vn | e] eqn:En; simpl in H;
      [ | discriminate].
    destruct (ToString vn) as [tn | e] eqn:Tn; simpl in H; [ | discriminate].
    destruct (getProp workflow "path") as [vp | e] eqn:Ep; simpl in H;
      [ | discriminate].
    destruct (ToString vp) as [tp | e] eqn:Tp; simpl in H; [ | discriminate].
    destruct (ToString vs) as [ts | e] eqn:Ts; simpl in H; [ | discriminate].
    destruct (getProp workflow "id") as [vi | e] eqn:Ei; simpl in H;
      [ | discriminate].
    destruct (ToString vi) as [ti | e] eqn:Ti; simpl in H; [ | discriminate].
    split; [intros ->; discriminate | ].
    split; [intros ->; discriminate | ].
    intros k Hk x Hx. simpl in Hk.
    destruct Hk as [<- | [<- | [<- | [<- | []]]]];
      rewrite Hx in *; eauto;
      match goal with E : Ok _ = Ok _ |- _ => injection E as <- end; eauto.
  - intros (Hu & Hn & Hp).
    assert (Hget : forall k, exists x, getProp workflow k = Ok x)
      by (intros k; destruct workflow; simpl; eauto; congruence).
    assert (Hprint : forall k, In k ["name"; "path"; "state"; "id"] ->
              exists x t, getProp workflow k = Ok x /\ ToString x = Ok t).
    { intros k Hk. destruct (Hget k) as [x Hx].
      destruct (Hp k Hk x Hx) as [t Ht]. eauto. }
    destruct (Hprint "state") as (vs & ts & -> & Ts); [simpl; auto | ].
    destruct (Hprint "name") as (vn & tn & -> & Tn); [simpl; auto | ].
    destruct (Hprint "path") as (vp & tp & -> & Tp); [simpl; auto | ].
    destruct (Hprint "id") as (vi & ti & -> & Ti); [simpl; auto 6 | ].
    simpl. rewrite Tn. simpl. rewrite Tp. simpl. rewrite Ts. simpl.
    rewrite Ti. reflexivity.
Qed.

Lemma forEach_listWorkflows_each (items : list value) :
  WorkflowManager.forEach (VArr items) WorkflowManager.listWorkflows_each
    = Ok tt <->
  Forall (fun workflow =>
            WorkflowManager.listWorkflows_each workflow 0 = Ok tt) items.
Proof.
  unfold WorkflowManager.forEach.
  generalize 0%nat at 1 as index.
  induction items as [ | x r IH]; intros index; simpl.
  - split; auto.
  - change (WorkflowManager.listWorkflows_each x index)
      with (WorkflowManager.listWorkflows_each x 0).
    destruct (WorkflowManager.listWorkflows_each x 0) as [[] | e] eqn:E;
      simpl.
    + rewrite IH. split; intros H; [constructor; auto | now inversion H].
    + split; intros H; [discriminate | inversion H; congruence].
Qed.

Lemma listWorkflows_then_VArr (response data : value) (items : list value) :
  getProp response "data" = Ok data ->
  getProp data "workflows" = Ok (VArr items) ->
  WorkflowManager.listWorkflows_then (Ok response) =
  (_ <- WorkflowManager.forEach (VArr items)
          WorkflowManager.listWorkflows_each ;;
   Ok response).
Proof.
  intros Hd Hw. unfold WorkflowManager.listWorkflows_then.
  cbn [bind]. rewrite Hd. cbn [bind]. rewrite Hw. cbn [bind].
  change (WorkflowManager.printed (VArr items) "length")
    with (Ok tt : result unit).
  cbn [bind].
  now destruct (WorkflowManager.forEach (VArr items)
                  WorkflowManager.listWorkflows_each) as [[] | e].
Qed.

(** X4.  When the listing returns.  On a 2xx response the listing
    returns if and only if the workflows of the resolved data are an array
    of which every entry is neither undefined nor null and has a name, a
    path, a state and an id that convert to a string where present; in
    particular one null entry in the array makes the listing throw. *)
Theorem listWorkflows_returns_iff
    (GITHUB_TOKEN : string) (JSON_parse : string -> option value)
    (w : world) (res : incoming) :
  https w (WorkflowManager.makeRequest_options GITHUB_TOKEN
             WorkflowManager.listWorkflows_path None None)
    = Responded res ->
  (200 <= statusCode res < 300)%N ->
  let data :=
    WorkflowManager.resolved_data JSON_parse (collect (chunks res)) in
  let settled :=
    outcome w (WorkflowManager.listWorkflows GITHUB_TOKEN JSON_parse) in
  ((exists response, settled = Ok response) <->
   exists items,
     getProp data "workflows" = Ok (VArr items) /\
     Forall
       (fun workflow =>
          workflow <> VUndefined /\ workflow <> VNull /\
          forall k, In k ["name"; "path"; "state"; "id"] ->
                    forall x, getProp workflow k = Ok x ->
                              exists t, ToString x = Ok t) items) /\
  (forall items,
     getProp data "workflows" = Ok (VArr items) ->
     In VNull items -> exists e, settled = Throw e).
Proof.
  intros Hres Hst data settled.
  set (response :=
         VObj [("statusCode", VNum (Z.of_N (statusCode res)));
               ("data", data)]).
  assert (Hsettled :
            settled = WorkflowManager.listWorkflows_then (Ok response)).
  { unfold settled, WorkflowManager.listWorkflows.
    rewrite outcome_pbind_Done, makeRequest_outcome, Hres.
    now rewrite makeRequest_onEnd_2xx. }
  assert (Hiff :
    (exists r, settled = Ok r) <->
    exists items,
      getProp data "workflows" = Ok (VArr items) /\
      Forall
        (fun workflow =>
           workflow <> VUndefined /\ workflow <> VNull /\
           forall k, In k ["name"; "path"; "state"; "id"] ->
                     forall x, getProp workflow k = Ok x ->
                               exists t, ToString x = Ok t) items).
  { split.
    - intros [r Hr]. rewrite Hsettled in Hr.
      destruct (listWorkflows_then_Ok _ _ Hr) as (E & d & items & Hd & Hw).
      injection E as <-. simpl in Hd. injection Hd as <-.
      exists items. split; [exact Hw | ].
      rewrite (listWorkflows_then_VArr response data items eq_refl Hw) in Hr.
      destruct (WorkflowManager.forEach _ _) as [[] | e] eqn:Ef;
        [ | discriminate].
      apply forEach_listWorkflows_each in Ef.
      eapply Forall_impl; [ | exact Ef].
      intros workflow H. now apply listWorkflows_each_Ok in H.
    - intros (items & Hw & Hall). exists response. rewrite Hsettled.
      rewrite (listWorkflows_then_VArr response data items eq_refl Hw).
      assert (Ef : WorkflowManager.forEach (VArr items)
                     WorkflowManager.listWorkflows_each = Ok tt).
      { apply forEach_listWorkflows_each.
        eapply Forall_impl; [ | exact Hall].
        intros workflow H. now apply (listWorkflows_each_Ok workflow 0). }
      now rewrite Ef. }
  split; [exact Hiff | ].
  intros items Hw Hin.
  destruct settled as [r | e] eqn:E; [ | eauto].
  exfalso.
  destruct (proj1 Hiff (ex_intro _ r eq_refl)) as (items' & Hw' & Hall).
  rewrite Hw in Hw'. injection Hw' as <-.
  rewrite Forall_forall in Hall.
  destruct (Hall VNull Hin) as (_ & Hn & _). now apply Hn.
Qed.

Lemma listWorkflows_returns_iff_example :
  let res := {| statusCode := 200;
                chunks := [Fixtures.text_of Fixtures.two_workflows] |} in
  let w := Fixtures.world_of (Responded res) Fixtures.not_found in
  let data := WorkflowManager.resolved_data parse_json (collect (chunks res)) in
  let settled :=
    outcome w (WorkflowManager.listWorkflows Fixtures.token parse_json) in
  ((exists response, settled = Ok response) <->
   exists items,
     getProp data "workflows" = Ok (VArr items) /\
     Forall
       (fun workflow =>
          workflow <> VUndefined /\ workflow <> VNull /\
          forall k, In k ["name"; "path"; "state"; "id"] ->
                    forall x, getProp workflow k = Ok x ->
                              exists t, ToString x = Ok t) items) /\
  (forall items,
     getProp data "workflows" = Ok (VArr items) ->
     In VNull items -> exists e, settled = Throw e).
Proof.
  intros res w.
  apply (listWorkflows_returns_iff Fixtures.token parse_json w res).
  - reflexivity.
  - simpl. lia.
Defined.

(** ** workflow-manager.js: the command line *)

Lemma run_pbind_Done {R S} (w : world) (p : prog R) (g : R -> S) :
  run w (pbind p (fun r => Done (g r))) = (trace w p, g (outcome w p)).
Proof.
  unfold trace, outcome. rewrite run_pbind. simpl. now rewrite app_nil_r.
Qed.

Lemma toLowerCase_nonempty (action : string) :
  WorkflowManagerMain.toLowerCase action <> "" -> action <> "".
Proof.
  now intros H ->.
Qed.

(** X5.  The command line of the workflow manager refuses without a
    request.  Without an action (no argument, or an empty one) the usage
    is printed and main returns; disable, enable and status without a
    workflow file (none, or an empty one) leave with code 1, and so does
    every action that is none of disable, enable, status and list in any
    letter case.  No request is made in any of these runs. *)
Theorem workflow_manager_main_refuses
    (GITHUB_TOKEN : string) (JSON_parse : string -> option value)
    (w : world) :
  let main := WorkflowManagerMain.main GITHUB_TOKEN JSON_parse in
  run w (main []) = ([], Returned VUndefined) /\
  (forall rest, run w (main ("" :: rest)) = ([], Returned VUndefined)) /\
  (forall action rest,
     In (WorkflowManagerMain.toLowerCase action)
        ["disable"; "enable"; "status"] ->
     rest = [] \/ (exists rest', rest = "" :: rest') ->
     run w (main (action :: rest)) = ([], Exited 1)) /\
  (forall action rest,
     action <> "" ->
     ~ In (WorkflowManagerMain.toLowerCase action)
         ["disable"; "enable"; "status"; "list"] ->
     run w (main (action :: rest)) = ([], Exited 1)).
Proof.
  intros main. split; [reflexivity | ]. split; [reflexivity | ]. split.
  - intros action rest Hin Hrest.
    assert (Ha : (action =? "") = false).
    { apply String.eqb_neq. apply toLowerCase_nonempty.
      simpl in Hin. intros E. rewrite E in Hin.
      intuition discriminate. }
    unfold main, WorkflowManagerMain.main.
    simpl in Hin.
    destruct Hrest as [-> | [rest' ->]];
      cbn [nth_error WorkflowManagerMain.given]; rewrite Ha;
      destruct Hin as [<- | [<- | [<- | []]]]; reflexivity.
  - intros action rest Ha Hnot.
    apply String.eqb_neq in Ha.
    unfold main, WorkflowManagerMain.main.
    cbn [nth_error WorkflowManagerMain.given]. rewrite Ha.
    simpl in Hnot.
    repeat match goal with
           | |- context [String.eqb ?a ?b] =>
               destruct (String.eqb_spec a b) as [E | _];
               [exfalso; apply Hnot; rewrite E; auto 6 | ]
           end.
    reflexivity.
Qed.

(** X6.  The command line of the workflow manager dispatches on the
    action in any letter case.  With a workflow file that is not empty,
    disable, enable and status run the operation of that name on the file;
    list runs the listing whatever follows.  The calls made are those of
    the operation, main returns when the operation returns and leaves with
    code 1 when it throws.  No run makes more than one request. *)
Theorem workflow_manager_main_dispatches
    (GITHUB_TOKEN : string) (JSON_parse : string -> option value)
    (w : world) :
  let main := WorkflowManagerMain.main GITHUB_TOKEN JSON_parse in
  let ran (operation : prog (result value)) :=
    (trace w operation,
     match outcome w operation with
     | Ok _ => Returned VUndefined
     | Throw _ => Exited 1
     end) in
  (forall action file rest,
     file <> "" ->
     (WorkflowManagerMain.toLowerCase action = "disable" ->
      run w (main (action :: file :: rest)) =
      ran (WorkflowManager.disableWorkflow GITHUB_TOKEN JSON_parse file)) /\
     (WorkflowManagerMain.toLowerCase action = "enable" ->
      run w (main (action :: file :: rest)) =
      ran (WorkflowManager.enableWorkflow GITHUB_TOKEN JSON_parse file)) /\
     (WorkflowManagerMain.toLowerCase action = "status" ->
      run w (main (action :: file :: rest)) =
      ran (WorkflowManager.getWorkflowStatus GITHUB_TOKEN JSON_parse
             file))) /\
  (forall action rest,
     WorkflowManagerMain.toLowerCase action = "list" ->
     run w (main (action :: rest)) =
     ran (WorkflowManager.listWorkflows GITHUB_TOKEN JSON_parse)) /\
  (forall args, (List.length (trace w (main args)) <= 1)%nat).
Proof.
  intros main ran.
  assert (Hact : forall action (name : string),
            WorkflowManagerMain.toLowerCase action = name -> name <> "" ->
            (action =? "") = false).
  { intros action name E Hn. apply String.eqb_neq.
    apply toLowerCase_nonempty. congruence. }
  split; [ | split].
  - intros action file rest Hfile. apply String.eqb_neq in Hfile.
    repeat split; intros E;
      unfold main, WorkflowManagerMain.main;
      cbn [nth_error WorkflowManagerMain.given];
      rewrite (Hact _ _ E) by discriminate; rewrite E;
      cbn [String.eqb Ascii.eqb Bool.eqb];
      unfold WorkflowManagerMain.with_file;
      cbn [WorkflowManagerMain.given]; rewrite Hfile;
      rewrite run_pbind_Done; reflexivity.
  - intros action rest E.
    unfold main, WorkflowManagerMain.main.
    cbn [nth_error WorkflowManagerMain.given].
    rewrite (Hact _ _ E) by discriminate. rewrite E.
    cbn [String.eqb Ascii.eqb Bool.eqb].
    rewrite run_pbind_Done. reflexivity.
  - intros args. unfold main, WorkflowManagerMain.main, trace.
    destruct (WorkflowManagerMain.given (nth_error args 0)) as [action | ];
      [ | simpl; lia].
    assert (Hfile : forall operation path,
              (forall f, trace w (operation f) = [EHttps (path f)]) ->
              (List.length
                 (fst (run w (WorkflowManagerMain.with_file
                                (nth_error args 1) operation))) <= 1)%nat).
    { intros operation path Hop. unfold WorkflowManagerMain.with_file.
      destruct (WorkflowManagerMain.given (nth_error args 1)) as [f | ];
        [ | simpl; lia].
      rewrite run_pbind_Done. simpl. rewrite Hop. simpl. lia. }
    repeat match goal with
           | |- context [if ?c then _ else _] => destruct c
           end.
    + eapply Hfile. intros f.
      unfold WorkflowManager.disableWorkflow.
      rewrite trace_pbind_Done. apply makeRequest_trace.
    + eapply Hfile. intros f.
      unfold WorkflowManager.enableWorkflow.
      rewrite trace_pbind_Done. apply makeRequest_trace.
    + eapply Hfile. intros f.
      unfold WorkflowManager.getWorkflowStatus.
      rewrite trace_pbind_Done. apply makeRequest_trace.
    + rewrite run_pbind_Done. simpl.
      unfold WorkflowManager.listWorkflows.
      rewrite trace_pbind_Done, makeRequest_trace. simpl. lia.
    + simpl. lia.
Qed.

Lemma workflow_manager_main_any_case_example :
  let w := Fixtures.world_of (Fixtures.response 204 []) Fixtures.not_found in
  run w (WorkflowManagerMain.main Fixtures.token parse_json
           ["DisAble"; "codeql.yml"; "ignored"])
  = (trace w (WorkflowManager.disableWorkflow Fixtures.token parse_json
                "codeql.yml"),
     Returned VUndefined).
Proof.
  intros w.
  exact (proj1 (proj1 (workflow_manager_main_dispatches
                         Fixtures.token parse_json w)
                  "DisAble" "codeql.yml" ["ignored"]
                  ltac:(discriminate)) eq_refl).
Defined.

(** ** trigger-codeql.js: the command line *)

Import TriggerCodeqlMain.

Lemma getField_setField_other fields k k' x :
  k <> k' -> getField (setField fields k x) k' = getField fields k'.
Proof.
  intros Hk. induction fields as [ | [k0 v] r IH]; simpl.
  - destruct (String.eqb_spec k k'); [contradiction | reflexivity].
  - destruct (String.eqb_spec k0 k) as [-> | NE]; simpl.
    + destruct (String.eqb_spec k k'); [contradiction | reflexivity].
    + now rewrite IH.
Qed.

(** Lists are taken two elements at a time. *)
Lemma pairs_ind (P : list string -> Prop) :
  P [] ->
  (forall key, P [key]) ->
  (forall key value rest, P rest -> P (key :: value :: rest)) ->
  forall args, P args.
Proof.
  intros H0 H1 H2 args.
  enough (H : P args /\ forall key, P (key :: args)) by apply H.
  induction args as [ | a r [IH1 IH2]]; split; auto.
Qed.

Lemma switch_key_from_command_line options key value options' :
  TriggerCodeqlMain.switch_key options key value = Some options' ->
  from_command_line options -> from_command_line options'.
Proof.
  unfold TriggerCodeqlMain.switch_key.
  intros H (fields & -> & Hflag).
  repeat match type of H with
         | context [String.eqb ?a ?b] => destruct (String.eqb a b)
         end;
    try discriminate; injection H as <-;
    try (exists fields; split; [reflexivity | exact Hflag]);
    eexists; (split; [reflexivity | ]); intros x;
    try (rewrite getField_setField_other by discriminate; apply Hflag).
  rewrite getField_setField_same. intros E. injection E as <-. eauto.
Qed.

Lemma parse_from_command_line args :
  forall options options',
    TriggerCodeqlMain.parse args options = Some options' ->
    from_command_line options -> from_command_line options'.
Proof.
  induction args as [ | key | key value rest IH] using pairs_ind;
    intros options options' H Hc; simpl in H.
  - now injection H as <-.
  - eapply switch_key_from_command_line; eauto.
  - destruct (TriggerCodeqlMain.switch_key options key (VStr value))
      as [o | ] eqn:E; [ | discriminate].
    eapply IH; eauto. eapply switch_key_from_command_line; eauto.
Qed.

Lemma empty_from_command_line : from_command_line (VObj []).
Proof.
  exists []. split; [reflexivity | discriminate].
Qed.

(** The payload of options built by the command line: it is always
    built, and its upload flag is the text of the boolean that was set, or
    true. *)
Lemma dispatchBody_from_command_line (fields : list (string * value)) :
  from_command_line (VObj fields) ->
  let supplied k :=
    match getField fields k with Some x => x | None => VUndefined end in
  exists b,
    (getField fields "uploadSarif" = Some (VBool b) \/
     getField fields "uploadSarif" = None /\ b = true) /\
    TriggerCodeql.dispatchBody (VObj fields) =
    Ok (VObj [("ref", withDefault (supplied "ref") (VStr "main"));
              ("inputs",
               VObj [("languages",
                      withDefault (supplied "languages")
                        (VStr "javascript-typescript,actions"));
                     ("queries",
                      withDefault (supplied "queries")
                        (VStr "security-extended"));
                     ("upload_sarif",
                      VStr (if b then "true" else "false"))])]).
Proof.
  intros (fields' & E & Hflag) supplied. injection E as <-.
  rewrite dispatchBody_VObj. cbv zeta.
  destruct (getField fields "uploadSarif") as [x | ] eqn:Hx.
  - destruct (Hflag x eq_refl) as [b ->]. exists b.
    split; [now left | ]. destruct b; reflexivity.
  - exists true. split; [now right | reflexivity].
Qed.

Lemma requestOptions_of_body GITHUB_TOKEN options body :
  TriggerCodeql.dispatchBody options = Ok body ->
  exists req,
    TriggerCodeql.requestOptions GITHUB_TOKEN options = Ok req /\
    hostname req = "api.github.com" /\
    method req = "POST" /\
    path req =
    "/repos/akhilesh1207/test-codeql/actions/workflows/codeql-manual.yml/dispatches" /\
    option_map Some (written req) = Some (JSON_stringify body) /\
    getField (headers req) "Authorization"
    = Some (VStr ("token " ++ GITHUB_TOKEN)).
Proof.
  intros Hb. unfold TriggerCodeql.requestOptions. rewrite Hb. cbn [bind].
  assert (Hs : exists data, JSON_stringify body = Some data).
  { destruct body; simpl in *; eauto.
    unfold TriggerCodeql.dispatchBody in Hb.
    repeat match type of Hb with
           | (bind ?r _) = _ => destruct r; cbn [bind] in Hb;
                                try discriminate
           end. }
  destruct Hs as [data Hs]. rewrite Hs. cbn [bind getProp].
  eexists. split; [reflexivity | ]. repeat split.
Qed.

(** The printed configuration of an options object: the four options
    with their defaults, converted in turn. *)
Lemma printConfiguration_VObj (fields : list (string * value)) :
  let supplied k :=
    match getField fields k with Some x => x | None => VUndefined end in
  TriggerCodeql.printConfiguration (VObj fields) =
  (_ <- ToString (withDefault (supplied "languages")
                    (VStr "javascript-typescript,actions")) ;;
   _ <- ToString (withDefault (supplied "queries")
                    (VStr "security-extended")) ;;
   _ <- ToString (withDefault (supplied "uploadSarif") (VBool true)) ;;
   _ <- ToString (withDefault (supplied "ref") (VStr "main")) ;;
   Ok tt).
Proof.
  reflexivity.
Qed.

Lemma ToString_primitive (x d : value) :
  primitive x -> primitive d -> exists t, ToString (withDefault x d) = Ok t.
Proof.
  assert (H : forall y, primitive y -> exists t, ToString y = Ok t)
    by (intros y [-> | [[b ->] | [t ->]]]; simpl; eauto).
  intros [-> | [[b ->] | [t ->]]] Hd; cbn [withDefault]; apply H; auto;
    [right; left | right; right]; eauto.
Qed.

(** Options whose four values are nothing, booleans or texts are printed
    without an error. *)
Lemma printConfiguration_primitive (fields : list (string * value)) :
  (forall k x,
     In k ["languages"; "queries"; "uploadSarif"; "ref"] ->
     getField fields k = Some x -> primitive x) ->
  TriggerCodeql.printConfiguration (VObj fields) = Ok tt.
Proof.
  intros H. rewrite printConfiguration_VObj. cbv zeta.
  assert (Hsup : forall k,
            In k ["languages"; "queries"; "uploadSarif"; "ref"] ->
            primitive match getField fields k with
                      | Some x => x | None => VUndefined end).
  { intros k Hk. destruct (getField fields k) as [x | ] eqn:E;
      [eapply H; eauto | now left]. }
  destruct (ToString_primitive _ (VStr "javascript-typescript,actions")
              (Hsup "languages" ltac:(simpl; auto)))
    as [t1 ->]; [right; right; eauto | ].
  destruct (ToString_primitive _ (VStr "security-extended")
              (Hsup "queries" ltac:(simpl; auto)))
    as [t2 ->]; [right; right; eauto | ].
  destruct (ToString_primitive _ (VBool true)
              (Hsup "uploadSarif" ltac:(simpl; auto)))
    as [t3 ->]; [right; left; eauto | ].
  destruct (ToString_primitive _ (VStr "main")
              (Hsup "ref" ltac:(simpl; auto 6)))
    as [t4 ->]; [right; right; eauto | ].
  reflexivity.
Qed.

Lemma switch_key_primitive options key value options' :
  TriggerCodeqlMain.switch_key options key value = Some options' ->
  primitive value ->
  primitive_options options -> primitive_options options'.
Proof.
  unfold TriggerCodeqlMain.switch_key.
  intros H Hv (fields & -> & Hf).
  assert (Hset : forall name x,
            primitive x -> primitive_options (VObj (setField fields name x))).
  { intros name x Hx. eexists. split; [reflexivity | ].
    intros k y. destruct (String.eqb_spec name k) as [<- | NE].
    - rewrite getField_setField_same. intros E. now injection E as <-.
    - rewrite getField_setField_other by exact NE. apply Hf. }
  repeat match type of H with
         | context [String.eqb ?a ?b] => destruct (String.eqb a b)
         end;
    try discriminate; injection H as <-;
    try (apply Hset; first [exact Hv | right; left; eauto]).
  exists fields. auto.
Qed.

Lemma parse_primitive args :
  forall options options',
    TriggerCodeqlMain.parse args options = Some options' ->
    primitive_options options -> primitive_options options'.
Proof.
  induction args as [ | key | key value rest IH] using pairs_ind;
    intros options options' H Hp.
  - simpl in H. now injection H as <-.
  - simpl in H. eapply switch_key_primitive; eauto. now left.
  - change (TriggerCodeqlMain.parse (key :: value :: rest) options)
      with (match TriggerCodeqlMain.switch_key options key (VStr value) with
            | Some o => TriggerCodeqlMain.parse rest o
            | None => None
            end) in H.
    destruct (TriggerCodeqlMain.switch_key options key (VStr value))
      as [o | ] eqn:E; [ | discriminate].
    eapply IH; eauto.
    eapply switch_key_primitive; eauto. right. right. eauto.
Qed.

(** The options of a command line are printed without an error. *)
Lemma printConfiguration_parsed args options :
  TriggerCodeqlMain.parse args (VObj []) = Some options ->
  TriggerCodeql.printConfiguration options = Ok tt.
Proof.
  intros Hp.
  destruct (parse_primitive args _ _ Hp) as (fields & -> & Hf).
  { exists []. split; [reflexivity | discriminate]. }
  apply printConfiguration_primitive. intros k x _. apply Hf.
Qed.

(** X7.  The command line of the dispatch script.  Whatever the
    arguments, either the help was asked for at the place of a key, and
    then main returns without a request; or the options are built, the
    payload is built from them without an error, exactly one request is
    made, a POST to the dispatch path of the workflow at api.github.com
    with the token, and main returns exactly when the answer is a response
    of status 204 and leaves with code 1 on every other answer. *)
Theorem trigger_main_sends_one_dispatch
    (GITHUB_TOKEN : string) (w : world) (args : list string) :
  match TriggerCodeqlMain.parse args (VObj []) with
  | None =>
      run w (TriggerCodeqlMain.main GITHUB_TOKEN args)
      = ([], Returned VUndefined)
  | Some options =>
      exists req,
        TriggerCodeql.requestOptions GITHUB_TOKEN options = Ok req /\
        trace w (TriggerCodeqlMain.main GITHUB_TOKEN args) = [EHttps req] /\
        hostname req = "api.github.com" /\
        method req = "POST" /\
        path req =
        "/repos/akhilesh1207/test-codeql/actions/workflows/codeql-manual.yml/dispatches" /\
        getField (headers req) "Authorization"
        = Some (VStr ("token " ++ GITHUB_TOKEN)) /\
        (outcome w (TriggerCodeqlMain.main GITHUB_TOKEN args)
         = Returned VUndefined <->
         exists res, https w req = Responded res /\ statusCode res = 204%N) /\
        ((forall res, https w req = Responded res ->
                      statusCode res <> 204%N) ->
         outcome w (TriggerCodeqlMain.main GITHUB_TOKEN args) = Exited 1)
  end.
Proof.
  unfold TriggerCodeqlMain.main.
  destruct (TriggerCodeqlMain.parse args (VObj [])) as [options | ] eqn:Hp;
    [ | reflexivity].
  destruct (parse_from_command_line _ _ _ Hp empty_from_command_line)
    as (fields & -> & Hflag).
  destruct (dispatchBody_from_command_line fields) as (b & _ & Hbody).
  { exists fields. auto. }
  cbv zeta in Hbody.
  destruct (requestOptions_of_body GITHUB_TOKEN _ _ Hbody)
    as (req & Hreq & Hhost & Hmethod & Hpath & _ & Hauth).
  exists req. unfold trace, outcome.
  rewrite run_pbind_Done. unfold trace, outcome.
  rewrite triggerWorkflow_run, Hreq, (printConfiguration_parsed _ _ Hp).
  cbn [fst snd].
  repeat (split; [assumption || reflexivity | ]).
  destruct (https w req) as [res | error].
  - unfold TriggerCodeql.onEnd.
    destruct (N.eqb_spec (statusCode res) 204) as [E | NE].
    + split; [split; eauto | ].
      intros H. now destruct (H res eq_refl).
    + split; [ | reflexivity].
      split; [discriminate | ].
      intros (res' & E & H204). injection E as <-. contradiction.
  - split; [ | reflexivity].
    split; [discriminate | ]. intros (res & E & _). discriminate.
Qed.

Lemma trigger_main_example :
  let w := Fixtures.world_of (Fixtures.response 204 []) Fixtures.not_found in
  let args := ["--languages"; "python"; "--upload-sarif"; "false"] in
  exists req,
    TriggerCodeql.requestOptions Fixtures.token
      (VObj [("languages", VStr "python"); ("uploadSarif", VBool false)])
    = Ok req /\
    trace w (TriggerCodeqlMain.main Fixtures.token args) = [EHttps req] /\
    hostname req = "api.github.com" /\
    method req = "POST" /\
    path req =
    "/repos/akhilesh1207/test-codeql/actions/workflows/codeql-manual.yml/dispatches" /\
    getField (headers req) "Authorization"
    = Some (VStr ("token " ++ Fixtures.token)) /\
    (outcome w (TriggerCodeqlMain.main Fixtures.token args)
     = Returned VUndefined <->
     exists res, https w req = Responded res /\ statusCode res = 204%N) /\
    ((forall res, https w req = Responded res -> statusCode res <> 204%N) ->
     outcome w (TriggerCodeqlMain.main Fixtures.token args) = Exited 1).
Proof.
  intros w args.
  exact (trigger_main_sends_one_dispatch Fixtures.token w args).
Defined.

(** Parsing a list that starts with whole pairs is parsing the pairs and
    then the rest. *)
Lemma parse_app (pre : list string) :
  Nat.even (List.length pre) = true ->
  forall options rest,
    TriggerCodeqlMain.parse (pre ++ rest) options =
    match TriggerCodeqlMain.parse pre options with
    | Some options' => TriggerCodeqlMain.parse rest options'
    | None => None
    end.
Proof.
  induction pre as [ | key | key value pre IH] using pairs_ind;
    intros Heven options rest.
  - reflexivity.
  - discriminate.
  - change (TriggerCodeqlMain.parse ((key :: value :: pre) ++ rest) options)
      with (match TriggerCodeqlMain.switch_key options key (VStr value) with
            | Some options' => TriggerCodeqlMain.parse (pre ++ rest) options'
            | None => None
            end).
    change (TriggerCodeqlMain.parse (key :: value :: pre) options)
      with (match TriggerCodeqlMain.switch_key options key (VStr value) with
            | Some options' => TriggerCodeqlMain.parse pre options'
            | None => None
            end).
    destruct (TriggerCodeqlMain.switch_key options key (VStr value));
      [ | reflexivity].
    apply IH. exact Heven.
Qed.

(** X8.  The last flag wins.  After any whole pairs of arguments
    without a help key, a closing flag with its value decides the field of
    the payload: ref, languages and queries carry the value as it is, and
    upload_sarif is the text true only when the value is exactly the text
    true, and the text false for every other value. *)
Theorem trigger_last_flag_wins
    (pre : list string) (options : value) (v : string) :
  Nat.even (List.length pre) = true ->
  TriggerCodeqlMain.parse pre (VObj []) = Some options ->
  let body_of flag :=
    match TriggerCodeqlMain.parse (pre ++ [flag; v]) (VObj []) with
    | Some options' => TriggerCodeql.dispatchBody options'
    | None => Throw (Error "help")
    end in
  (body <- body_of "--ref" ;; getProp body "ref") = Ok (VStr v) /\
  (body <- body_of "--languages" ;;
   inputs <- getProp body "inputs" ;; getProp inputs "languages")
  = Ok (VStr v) /\
  (body <- body_of "--queries" ;;
   inputs <- getProp body "inputs" ;; getProp inputs "queries")
  = Ok (VStr v) /\
  (body <- body_of "--upload-sarif" ;;
   inputs <- getProp body "inputs" ;; getProp inputs "upload_sarif")
  = Ok (VStr (if v =? "true" then "true" else "false")).
Proof.
  intros Heven Hp body_of.
  destruct (parse_from_command_line _ _ _ Hp empty_from_command_line)
    as (fields & -> & Hflag).
  assert (Hbody : forall flag name x,
            TriggerCodeqlMain.switch_key (VObj fields) flag (VStr v)
            = Some (VObj (setField fields name x)) ->
            (forall y, getField (setField fields name x) "uploadSarif"
                       = Some y -> exists b, y = VBool b) ->
            exists b,
              (getField (setField fields name x) "uploadSarif"
               = Some (VBool b) \/
               getField (setField fields name x) "uploadSarif" = None
               /\ b = true) /\
              body_of flag =
              Ok (VObj
                    [("ref",
                      withDefault
                        match getField (setField fields name x) "ref" with
                        | Some z => z | None => VUndefined end
                        (VStr "main"));
                     ("inputs",
                      VObj
                        [("languages",
                          withDefault
                            match getField (setField fields name x)
                                    "languages" with
                            | Some z => z | None => VUndefined end
                            (VStr "javascript-typescript,actions"));
                         ("queries",
                          withDefault
                            match getField (setField fields name x)
                                    "queries" with
                            | Some z => z | None => VUndefined end
                            (VStr "security-extended"));
                         ("upload_sarif",
                          VStr (if b then "true" else "false"))])])).
  { intros flag name x Hs Hinv. unfold body_of.
    rewrite (parse_app pre Heven), Hp.
    cbn [TriggerCodeqlMain.parse]. rewrite Hs.
    apply dispatchBody_from_command_line. eexists. eauto. }
  assert (Hother : forall name x,
            name <> "uploadSarif" ->
            forall y, getField (setField fields name x) "uploadSarif"
                      = Some y -> exists b, y = VBool b).
  { intros name x Hn y.
    rewrite getField_setField_other by exact Hn. apply Hflag. }
  split; [ | split; [ | split]].
  - destruct (Hbody "--ref" "ref" (VStr v) eq_refl
                (Hother "ref" (VStr v) ltac:(discriminate)))
      as (b & _ & ->).
    cbn [bind getProp getField String.eqb Ascii.eqb Bool.eqb].
    now rewrite getField_setField_same.
  - destruct (Hbody "--languages" "languages" (VStr v) eq_refl
                (Hother "languages" (VStr v) ltac:(discriminate)))
      as (b & _ & ->).
    cbn [bind getProp getField String.eqb Ascii.eqb Bool.eqb].
    now rewrite getField_setField_same.
  - destruct (Hbody "--queries" "queries" (VStr v) eq_refl
                (Hother "queries" (VStr v) ltac:(discriminate)))
      as (b & _ & ->).
    cbn [bind getProp getField String.eqb Ascii.eqb Bool.eqb].
    now rewrite getField_setField_same.
  - destruct (Hbody "--upload-sarif" "uploadSarif" (VBool (v =? "true"))
                eq_refl) as (b & Hb & ->).
    { intros y. rewrite getField_setField_same.
      intros E. injection E as <-. eauto. }
    rewrite getField_setField_same in Hb.
    destruct Hb as [E | [E _]]; [ | discriminate].
    injection E as <-.
    cbn [bind getProp getField String.eqb Ascii.eqb Bool.eqb].
    reflexivity.
Qed.

Lemma trigger_last_flag_wins_example :
  let pre := ["--ref"; "dev"; "--upload-sarif"; "true"] in
  let v := "TRUE" in
  let body_of flag :=
    match TriggerCodeqlMain.parse (pre ++ [flag; v]) (VObj []) with
    | Some options' => TriggerCodeql.dispatchBody options'
    | None => Throw (Error "help")
    end in
  (body <- body_of "--ref" ;; getProp body "ref") = Ok (VStr v) /\
  (body <- body_of "--languages" ;;
   inputs <- getProp body "inputs" ;; getProp inputs "languages")
  = Ok (VStr v) /\
  (body <- body_of "--queries" ;;
   inputs <- getProp body "inputs" ;; getProp inputs "queries")
  = Ok (VStr v) /\
  (body <- body_of "--upload-sarif" ;;
   inputs <- getProp body "inputs" ;; getProp inputs "upload_sarif")
  = Ok (VStr (if v =? "true" then "true" else "false")).
Proof.
  intros pre v.
  apply (trigger_last_flag_wins pre
           (VObj [("ref", VStr "dev"); ("uploadSarif", VBool true)]) v);
    reflexivity.
Defined.

(** X9.  A closing flag without a value.  After any whole pairs of
    arguments without a help key, a last --ref, --languages or --queries
    that has no value puts the field back to its default, whatever was
    given for it before, and a last --upload-sarif without a value sends
    the text false. *)
Theorem trigger_flag_without_value
    (pre : list string) (options : value) :
  Nat.even (List.length pre) = true ->
  TriggerCodeqlMain.parse pre (VObj []) = Some options ->
  let body_of flag :=
    match TriggerCodeqlMain.parse (pre ++ [flag]) (VObj []) with
    | Some options' => TriggerCodeql.dispatchBody options'
    | None => Throw (Error "help")
    end in
  (body <- body_of "--ref" ;; getProp body "ref") = Ok (VStr "main") /\
  (body <- body_of "--languages" ;;
   inputs <- getProp body "inputs" ;; getProp inputs "languages")
  = Ok (VStr "javascript-typescript,actions") /\
  (body <- body_of "--queries" ;;
   inputs <- getProp body "inputs" ;; getProp inputs "queries")
  = Ok (VStr "security-extended") /\
  (body <- body_of "--upload-sarif" ;;
   inputs <- getProp body "inputs" ;; getProp inputs "upload_sarif")
  = Ok (VStr "false").
Proof.
  intros Heven Hp body_of.
  destruct (parse_from_command_line _ _ _ Hp empty_from_command_line)
    as (fields & -> & Hflag).
  assert (Hbody : forall flag name x,
            TriggerCodeqlMain.switch_key (VObj fields) flag VUndefined
            = Some (VObj (setField fields name x)) ->
            (forall y, getField (setField fields name x) "uploadSarif"
                       = Some y -> exists b, y = VBool b) ->
            exists b,
              (getField (setField fields name x) "uploadSarif"
               = Some (VBool b) \/
               getField (setField fields name x) "uploadSarif" = None
               /\ b = true) /\
              body_of flag =
              Ok (VObj
                    [("ref",
                      withDefault
                        match getField (setField fields name x) "ref" with
                        | Some z => z | None => VUndefined end
                        (VStr "main"));
                     ("inputs",
                      VObj
                        [("languages",
                          withDefault
                            match getField (setField fields name x)
                                    "languages" with
                            | Some z => z | None => VUndefined end
                            (VStr "javascript-typescript,actions"));
                         ("queries",
                          withDefault
                            match getField (setField fields name x)
                                    "queries" with
                            | Some z => z | None => VUndefined end
                            (VStr "security-extended"));
                         ("upload_sarif",
                          VStr (if b then "true" else "false"))])])).
  { intros flag name x Hs Hinv. unfold body_of.
    rewrite (parse_app pre Heven), Hp.
    cbn [TriggerCodeqlMain.parse]. rewrite Hs.
    apply dispatchBody_from_command_line. eexists. eauto. }
  assert (Hother : forall name x,
            name <> "uploadSarif" ->
            forall y, getField (setField fields name x) "uploadSarif"
                      = Some y -> exists b, y = VBool b).
  { intros name x Hn y.
    rewrite getField_setField_other by exact Hn. apply Hflag. }
  split; [ | split; [ | split]].
  - destruct (Hbody "--ref" "ref" VUndefined eq_refl
                (Hother "ref" VUndefined ltac:(discriminate)))
      as (b & _ & ->).
    cbn [bind getProp getField String.eqb Ascii.eqb Bool.eqb].
    now rewrite getField_setField_same.
  - destruct (Hbody "--languages" "languages" VUndefined eq_refl
                (Hother "languages" VUndefined ltac:(discriminate)))
      as (b & _ & ->).
    cbn [bind getProp getField String.eqb Ascii.eqb Bool.eqb].
    now rewrite getField_setField_same.
  - destruct (Hbody "--queries" "queries" VUndefined eq_refl
                (Hother "queries" VUndefined ltac:(discriminate)))
      as (b & _ & ->).
    cbn [bind getProp getField String.eqb Ascii.eqb Bool.eqb].
    now rewrite getField_setField_same.
  - destruct (Hbody "--upload-sarif" "uploadSarif" (VBool false) eq_refl)
      as (b & Hb & ->).
    { intros y. rewrite getField_setField_same.
      intros E. injection E as <-. eauto. }
    rewrite getField_setField_same in Hb.
    destruct Hb as [E | [E _]]; [ | discriminate].
    injection E as <-.
    cbn [bind getProp getField String.eqb Ascii.eqb Bool.eqb].
    reflexivity.
Qed.

Lemma trigger_flag_without_value_example :
  let pre := ["--ref"; "dev"; "--upload-sarif"; "true"] in
  let body_of flag :=
    match TriggerCodeqlMain.parse (pre ++ [flag]) (VObj []) with
    | Some options' => TriggerCodeql.dispatchBody options'
    | None => Throw (Error "help")
    end in
  (body <- body_of "--ref" ;; getProp body "ref") = Ok (VStr "main") /\
  (body <- body_of "--languages" ;;
   inputs <- getProp body "inputs" ;; getProp inputs "languages")
  = Ok (VStr "javascript-typescript,actions") /\
  (body <- body_of "--queries" ;;
   inputs <- getProp body "inputs" ;; getProp inputs "queries")
  = Ok (VStr "security-extended") /\
  (body <- body_of "--upload-sarif" ;;
   inputs <- getProp body "inputs" ;; getProp inputs "upload_sarif")
  = Ok (VStr "false").
Proof.
  intros pre.
  apply (trigger_flag_without_value pre
           (VObj [("ref", VStr "dev"); ("uploadSarif", VBool true)]));
    reflexivity.
Defined.

Lemma trigger_main_trace GITHUB_TOKEN (w : world) args options body :
  TriggerCodeqlMain.parse args (VObj []) = Some options ->
  TriggerCodeql.dispatchBody options = Ok body ->
  exists req,
    trace w (TriggerCodeqlMain.main GITHUB_TOKEN args) = [EHttps req].
Proof.
  intros Hp Hb. unfold TriggerCodeqlMain.main. rewrite Hp.
  destruct (requestOptions_of_body GITHUB_TOKEN _ _ Hb) as (req & Hreq & _).
  exists req. rewrite trace_pbind_Done. unfold trace.
  now rewrite triggerWorkflow_run, Hreq, (printConfiguration_parsed _ _ Hp).
Qed.

(** X10.  The help key.  After any whole pairs of arguments without a
    help key, --help at the place of a key ends main without a request,
    whatever was given before and whatever follows; at the place of a
    value it is no help key: after --ref it is the ref of the dispatch
    that is sent. *)
Theorem trigger_help_sends_nothing
    (GITHUB_TOKEN : string) (w : world)
    (pre rest : list string) (options : value) :
  Nat.even (List.length pre) = true ->
  TriggerCodeqlMain.parse pre (VObj []) = Some options ->
  run w (TriggerCodeqlMain.main GITHUB_TOKEN (pre ++ "--help" :: rest))
  = ([], Returned VUndefined) /\
  exists options' body req,
    TriggerCodeqlMain.parse (pre ++ ["--ref"; "--help"]) (VObj [])
    = Some options' /\
    TriggerCodeql.dispatchBody options' = Ok body /\
    getProp body "ref" = Ok (VStr "--help") /\
    trace w (TriggerCodeqlMain.main GITHUB_TOKEN
               (pre ++ ["--ref"; "--help"])) = [EHttps req].
Proof.
  intros Heven Hp. split.
  - unfold TriggerCodeqlMain.main.
    rewrite (parse_app pre Heven), Hp.
    assert (E : TriggerCodeqlMain.parse ("--help" :: rest) options = None)
      by (destruct rest; reflexivity).
    now rewrite E.
  - destruct (parse_from_command_line _ _ _ Hp empty_from_command_line)
      as (fields & -> & Hflag).
    assert (Hp' : TriggerCodeqlMain.parse (pre ++ ["--ref"; "--help"])
                    (VObj [])
                  = Some (VObj (setField fields "ref" (VStr "--help"))))
      by (rewrite (parse_app pre Heven), Hp; reflexivity).
    destruct (dispatchBody_from_command_line
                (setField fields "ref" (VStr "--help")))
      as (b & _ & Hbody).
    { apply (parse_from_command_line _ _ _ Hp' empty_from_command_line). }
    cbv zeta in Hbody.
    destruct (trigger_main_trace GITHUB_TOKEN w _ _ _ Hp' Hbody)
      as [req Htrace].
    eexists. eexists. exists req.
    split; [exact Hp' | ]. split; [exact Hbody | ].
    split; [ | exact Htrace].
    cbn [getProp getField String.eqb Ascii.eqb Bool.eqb].
    now rewrite getField_setField_same.
Qed.

Lemma trigger_help_example :
  let w := Fixtures.world_of (Fixtures.response 204 []) Fixtures.not_found in
  let pre := ["--languages"; "python"] in
  run w (TriggerCodeqlMain.main Fixtures.token
           (pre ++ "--help" :: ["--ref"; "dev"]))
  = ([], Returned VUndefined) /\
  exists options' body req,
    TriggerCodeqlMain.parse (pre ++ ["--ref"; "--help"]) (VObj [])
    = Some options' /\
    TriggerCodeql.dispatchBody options' = Ok body /\
    getProp body "ref" = Ok (VStr "--help") /\
    trace w (TriggerCodeqlMain.main Fixtures.token
               (pre ++ ["--ref"; "--help"])) = [EHttps req].
Proof.
  intros w pre.
  apply (trigger_help_sends_nothing Fixtures.token w pre ["--ref"; "dev"]
           (VObj [("languages", VStr "python")])); reflexivity.
Defined.

(** ** trigger-codeql.js: when the dispatch is rejected before or
    without a response *)

Lemma run_trace_outcome {R} (w : world) (p : prog R) :
  run w p = (trace w p, outcome w p).
Proof.
  unfold trace, outcome. now destruct (run w p).
Qed.


(** X11.  When the dispatch is rejected without a response.  It is
    rejected without a request when its options are null, at the read of
    the first option; when the upload flag is null, at its conversion to a
    string; and when languages, queries or ref is a value that does not
    convert to a string, at the printing of the configuration.  A request
    that was made and fails with an 'error' event rejects with the error of
    the event, after that one request.  For options that are undefined, or
    an object whose four options are each absent, undefined, a boolean or a
    text, the request is always made. *)
Theorem triggerWorkflow_rejections
    (GITHUB_TOKEN : string) (w : world) :
  run w (TriggerCodeql.triggerWorkflow GITHUB_TOKEN VNull)
  = ([], Throw (TypeError_read VNull "languages")) /\
  (forall fields,
     getField fields "uploadSarif" = Some VNull ->
     run w (TriggerCodeql.triggerWorkflow GITHUB_TOKEN (VObj fields))
     = ([], Throw (TypeError_read VNull "toString"))) /\
  (forall fields k x e,
     In k ["languages"; "queries"; "ref"] ->
     getField fields k = Some x ->
     ToString x = Throw e ->
     trace w (TriggerCodeql.triggerWorkflow GITHUB_TOKEN (VObj fields)) = []
     /\
     exists e',
       outcome w (TriggerCodeql.triggerWorkflow GITHUB_TOKEN (VObj fields))
       = Throw e') /\
  (forall options req error,
     In (EHttps req)
        (trace w (TriggerCodeql.triggerWorkflow GITHUB_TOKEN options)) ->
     https w req = Failed error ->
     run w (TriggerCodeql.triggerWorkflow GITHUB_TOKEN options)
     = ([EHttps req], Throw error)) /\
  (forall fields,
     (forall k x,
        In k ["languages"; "queries"; "uploadSarif"; "ref"] ->
        getField fields k = Some x -> primitive x) ->
     exists req,
       trace w (TriggerCodeql.triggerWorkflow GITHUB_TOKEN (VObj fields))
       = [EHttps req]) /\
  (exists req,
     trace w (TriggerCodeql.triggerWorkflow GITHUB_TOKEN VUndefined)
     = [EHttps req]).
Proof.
  split; [reflexivity | ].
  split.
  { intros fields H. rewrite triggerWorkflow_run.
    unfold TriggerCodeql.requestOptions.
    rewrite dispatchBody_VObj. cbv zeta. rewrite H. reflexivity. }
  split.
  { intros fields k x e Hk Hx Hts.
    assert (Hd : forall d, withDefault x d = x)
      by (intros d; destruct x; try reflexivity; discriminate).
    unfold trace, outcome. rewrite triggerWorkflow_run.
    destruct (TriggerCodeql.requestOptions GITHUB_TOKEN (VObj fields))
      as [req | e0]; [ | simpl; eauto].
    destruct (TriggerCodeql.printConfiguration (VObj fields)) as [[] | e0]
      eqn:Hprint; [exfalso | simpl; eauto].
    rewrite printConfiguration_VObj in Hprint. cbv zeta in Hprint.
    simpl in Hk.
    destruct Hk as [<- | [<- | [<- | []]]]; rewrite Hx, Hd, Hts in Hprint;
      cbn [bind] in Hprint; try discriminate;
      repeat match type of Hprint with
             | (bind ?r _) = _ =>
                 destruct r; cbn [bind] in Hprint; try discriminate
             end. }
  split.
  { intros options req error Hsent Hfail.
    destruct (triggerWorkflow_sent _ _ _ _ Hsent) as (_ & _ & Ht & Ho).
    rewrite run_trace_outcome, Ht, Ho, Hfail. reflexivity. }
  split.
  - intros fields H.
    assert (exists body, TriggerCodeql.dispatchBody (VObj fields) = Ok body)
      as [body Hb].
    { rewrite dispatchBody_VObj. cbv zeta.
      destruct (getField fields "uploadSarif") as [x | ] eqn:Hx;
        [ | simpl; eauto].
      destruct (H "uploadSarif" x ltac:(simpl; auto) Hx)
        as [-> | [[b ->] | [t ->]]]; simpl; eauto. }
    destruct (requestOptions_of_body GITHUB_TOKEN _ _ Hb) as (req & Hreq & _).
    exists req. unfold trace.
    now rewrite triggerWorkflow_run, Hreq, (printConfiguration_primitive _ H).
  - exists (match TriggerCodeql.requestOptions GITHUB_TOKEN VUndefined with
            | Ok req => req
            | Throw _ =>
                {| hostname := ""; port := 0; path := ""; method := "";
                   headers := []; written := None |}
            end).
    unfold trace. rewrite triggerWorkflow_run. reflexivity.
Qed.

(** An option that shadows toString with a number is not printed: the
    dispatch is rejected and nothing is sent, whatever the server would
    answer. *)
Example triggerWorkflow_unprintable_ref :
  run (Fixtures.world_of (Fixtures.response 204 []) Fixtures.not_found)
    (TriggerCodeql.triggerWorkflow Fixtures.token
       (VObj [("ref", VObj [("toString", VNum 1)])]))
  = ([], Throw TypeError_primitive).
Proof.
  vm_compute. reflexivity.
Qed.

(** ** push-workflow.js: the local file, the content and the end *)

(** X12.  Without the local file nothing is sent.  When the workflow
    file is not on disk the script resolves its path, looks for it and
    leaves with code 1, the try block having thrown the error that names
    the resolved path; when it is there and cannot be read the script
    leaves with code 1 after the read.  Neither the existence check nor
    the PUT is called. *)
Theorem pushWorkflow_without_local_file (w : world) :
  let workflowFilePath := path_resolve w PushWorkflow.WORKFLOW_PATH in
  (fs_existsSync w workflowFilePath = false ->
   run w PushWorkflow.pushWorkflow
   = ([EResolve PushWorkflow.WORKFLOW_PATH; EExists workflowFilePath],
      Exited 1) /\
   outcome w PushWorkflow.pushWorkflow_try
   = Throw (Error ("Workflow file not found: " ++ workflowFilePath))) /\
  (forall e,
     fs_existsSync w workflowFilePath = true ->
     fs_readFileSync w workflowFilePath = Throw e ->
     run w PushWorkflow.pushWorkflow
     = ([EResolve PushWorkflow.WORKFLOW_PATH; EExists workflowFilePath;
         ERead workflowFilePath],
        Exited 1)).
Proof.
  intros workflowFilePath.
  assert (Hrun := pushWorkflow_try_run w). cbv zeta in Hrun.
  fold workflowFilePath in Hrun.
  split.
  - intros Hno. rewrite Hno in Hrun. branch Hrun.
    rewrite run_trace_outcome, pushWorkflow_trace, pushWorkflow_outcome.
    unfold trace, outcome. rewrite Hrun. split; reflexivity.
  - intros e Hyes Hread. rewrite Hyes, Hread in Hrun. branch Hrun.
    rewrite run_trace_outcome, pushWorkflow_trace, pushWorkflow_outcome.
    unfold trace, outcome. rewrite Hrun. reflexivity.
Qed.

Lemma pushWorkflow_without_local_file_example :
  let w := Fixtures2.world_without_file in
  let workflowFilePath :=
    "/home/runner/test-codeql/.github/workflows/codeql-manual.yml" in
  (fs_existsSync w workflowFilePath = false ->
   run w PushWorkflow.pushWorkflow
   = ([EResolve PushWorkflow.WORKFLOW_PATH; EExists workflowFilePath],
      Exited 1) /\
   outcome w PushWorkflow.pushWorkflow_try
   = Throw (Error ("Workflow file not found: " ++ workflowFilePath))) /\
  (forall e,
     fs_existsSync w workflowFilePath = true ->
     fs_readFileSync w workflowFilePath = Throw e ->
     run w PushWorkflow.pushWorkflow
     = ([EResolve PushWorkflow.WORKFLOW_PATH; EExists workflowFilePath;
         ERead workflowFilePath],
        Exited 1)).
Proof.
  intros w. exact (pushWorkflow_without_local_file w).
Defined.

(** *** The encoding of the content *)

Ltac Zify.zify_post_hook ::= Z.to_euclidean_division_equations.

Lemma strings_by_three (P : string -> Prop) :
  P "" ->
  (forall a, P (String a "")) ->
  (forall a b, P (String a (String b ""))) ->
  (forall a b c r, P r -> P (String a (String b (String c r)))) ->
  forall s, P s.
Proof.
  intros H0 H1 H2 H3 s.
  enough (H : P s /\ (forall a, P (String a s)) /\
              forall a b, P (String a (String b s))) by apply H.
  induction s as [ | c r (IH0 & IH1 & IH2)]; repeat split; auto.
Qed.

Lemma base64_char_index (n : N) :
  (n < 64)%N ->
  Base64.index_of (base64_char n) = Some n /\
  Ascii.eqb (base64_char n) "=" = false.
Proof.
  intros Hn.
  set (test := fun m =>
         match Base64.index_of (base64_char m) with
         | Some k => (k =? m)%N && negb (Ascii.eqb (base64_char m) "=")
         | None => false
         end).
  assert (Hall : forallb test (map N.of_nat (seq 0 64)) = true)
    by (vm_compute; reflexivity).
  rewrite forallb_forall in Hall.
  assert (Hin : In n (map N.of_nat (seq 0 64))).
  { apply in_map_iff. exists (N.to_nat n).
    split; [apply N2Nat.id | apply in_seq; lia]. }
  specialize (Hall n Hin). unfold test in Hall.
  destruct (Base64.index_of (base64_char n)) as [k | ]; [ | discriminate].
  apply andb_prop in Hall as [Hk He].
  apply N.eqb_eq in Hk. subst k.
  split; [reflexivity | ]. now destruct (Ascii.eqb (base64_char n) "=").
Qed.

(** The encoding can be read back: nothing of the content is lost. *)
Lemma base64_decode (s : string) : Base64.decode (base64 s) = Some s.
Proof.
  induction s as [ | a | a b | a b c r IH] using strings_by_three.
  - reflexivity.
  - pose proof (N_ascii_bounded a) as Ha.
    cbn [base64 Base64.decode].
    destruct (base64_char_index (N_of_ascii a / 4)) as [-> _]; [lia | ].
    destruct (base64_char_index (N_of_ascii a mod 4 * 16)) as [-> _];
      [lia | ].
    cbn [Ascii.eqb Bool.eqb].
    replace (N_of_ascii a / 4 * 4 + N_of_ascii a mod 4 * 16 / 16)%N
      with (N_of_ascii a) by lia.
    now rewrite ascii_N_embedding.
  - pose proof (N_ascii_bounded a) as Ha.
    pose proof (N_ascii_bounded b) as Hb.
    cbn [base64 Base64.decode].
    destruct (base64_char_index (N_of_ascii a / 4)) as [-> _]; [lia | ].
    destruct (base64_char_index
                (N_of_ascii a mod 4 * 16 + N_of_ascii b / 16))
      as [-> _]; [lia | ].
    destruct (base64_char_index (N_of_ascii b mod 16 * 4)) as [-> ->];
      [lia | ].
    cbn [Ascii.eqb Bool.eqb].
    replace (N_of_ascii a / 4 * 4
             + (N_of_ascii a mod 4 * 16 + N_of_ascii b / 16) / 16)%N
      with (N_of_ascii a) by lia.
    replace ((N_of_ascii a mod 4 * 16 + N_of_ascii b / 16) mod 16 * 16
             + N_of_ascii b mod 16 * 4 / 4)%N
      with (N_of_ascii b) by lia.
    now rewrite !ascii_N_embedding.
  - pose proof (N_ascii_bounded a) as Ha.
    pose proof (N_ascii_bounded b) as Hb.
    pose proof (N_ascii_bounded c) as Hc.
    cbn [base64 Base64.decode].
    destruct (base64_char_index (N_of_ascii a / 4)) as [-> _]; [lia | ].
    destruct (base64_char_index
                (N_of_ascii a mod 4 * 16 + N_of_ascii b / 16))
      as [-> _]; [lia | ].
    destruct (base64_char_index
                (N_of_ascii b mod 16 * 4 + N_of_ascii c / 64))
      as [-> ->]; [lia | ].
    destruct (base64_char_index (N_of_ascii c mod 64)) as [-> ->];
      [lia | ].
    rewrite IH.
    replace (N_of_ascii a / 4 * 4
             + (N_of_ascii a mod 4 * 16 + N_of_ascii b / 16) / 16)%N
      with (N_of_ascii a) by lia.
    replace ((N_of_ascii a mod 4 * 16 + N_of_ascii b / 16) mod 16 * 16
             + (N_of_ascii b mod 16 * 4 + N_of_ascii c / 64) / 4)%N
      with (N_of_ascii b) by lia.
    replace ((N_of_ascii b mod 16 * 4 + N_of_ascii c / 64) mod 4 * 64
             + N_of_ascii c mod 64)%N
      with (N_of_ascii c) by lia.
    now rewrite !ascii_N_embedding.
Qed.

(** The fields of the request data besides the sha. *)
Lemma prepare_fields (contentBase64 : string) (existingFile requestData : value) :
  PushWorkflow.prepare contentBase64 existingFile = Ok requestData ->
  getProp requestData "owner" = Ok (VStr "akhilesh1207") /\
  getProp requestData "repo" = Ok (VStr "test-codeql") /\
  getProp requestData "path"
  = Ok (VStr ".github/workflows/codeql-manual.yml") /\
  getProp requestData "branch" = Ok (VStr "main") /\
  getProp requestData "content" = Ok (VStr contentBase64) /\
  getProp requestData "message"
  = Ok (VStr (if truthy existingFile
              then "Update CodeQL manual trigger workflow"
              else "Add CodeQL manual trigger workflow")).
Proof.
  unfold PushWorkflow.prepare.
  destruct (truthy existingFile) eqn:T.
  - destruct (getProp_truthy existingFile "sha" T) as [sha ->].
    cbn [bind]. intros H. injection H as <-. repeat split.
  - intros H. injection H as <-. repeat split.
Qed.

(** X13.  What is published.  Every PUT the script issues names the
    repository akhilesh1207/test-codeql, the path of the workflow and the
    branch main, and carries as content the base64 text of exactly what
    was read from the local file: decoding the content gives back the text
    that was read.  Its message is the one of an update or of a
    creation. *)
Theorem pushWorkflow_put_payload (w : world) (requestData : value) :
  In (EPut requestData) (trace w PushWorkflow.pushWorkflow) ->
  exists workflowContent content,
    fs_readFileSync w (path_resolve w PushWorkflow.WORKFLOW_PATH)
    = Ok workflowContent /\
    getProp requestData "content" = Ok (VStr content) /\
    content = base64 workflowContent /\
    Base64.decode content = Some workflowContent /\
    getProp requestData "owner" = Ok (VStr "akhilesh1207") /\
    getProp requestData "repo" = Ok (VStr "test-codeql") /\
    getProp requestData "path"
    = Ok (VStr ".github/workflows/codeql-manual.yml") /\
    getProp requestData "branch" = Ok (VStr "main") /\
    (getProp requestData "message"
     = Ok (VStr "Update CodeQL manual trigger workflow") \/
     getProp requestData "message"
     = Ok (VStr "Add CodeQL manual trigger workflow")).
Proof.
  intros Hput. rewrite pushWorkflow_trace in Hput. unfold trace in Hput.
  rewrite pushWorkflow_try_run in Hput.
  destruct (fs_existsSync w _); simpl in Hput;
    [ | intuition discriminate].
  destruct (fs_readFileSync w _) as [workflowContent | e0]; simpl in Hput;
    [ | intuition discriminate].
  destruct (PushWorkflow.checkExisting _) as [existingFile | e0];
    simpl in Hput; [ | intuition discriminate].
  destruct (PushWorkflow.prepare _ _) as [rd | e0] eqn:Hp; simpl in Hput;
    [ | intuition discriminate].
  assert (rd = requestData) as -> by (intuition congruence).
  destruct (prepare_fields _ _ _ Hp) as (Ho & Hr & Hpa & Hb & Hc & Hm).
  exists workflowContent, (base64 workflowContent).
  repeat (split; [assumption || reflexivity || apply base64_decode | ]).
  rewrite Hm. destruct (truthy existingFile); auto.
Qed.

Lemma pushWorkflow_put_payload_example :
  let w := Fixtures.world_of Fixtures.refused Fixtures.not_found in
  let requestData :=
    VObj [("owner", VStr "akhilesh1207"); ("repo", VStr "test-codeql");
          ("path", VStr ".github/workflows/codeql-manual.yml");
          ("message", VStr "Add CodeQL manual trigger workflow");
          ("content", VStr "bmFtZTogQ29kZVFM");
          ("branch", VStr "main")] in
  exists workflowContent content,
    fs_readFileSync w (path_resolve w PushWorkflow.WORKFLOW_PATH)
    = Ok workflowContent /\
    getProp requestData "content" = Ok (VStr content) /\
    content = base64 workflowContent /\
    Base64.decode content = Some workflowContent /\
    getProp requestData "owner" = Ok (VStr "akhilesh1207") /\
    getProp requestData "repo" = Ok (VStr "test-codeql") /\
    getProp requestData "path"
    = Ok (VStr ".github/workflows/codeql-manual.yml") /\
    getProp requestData "branch" = Ok (VStr "main") /\
    (getProp requestData "message"
     = Ok (VStr "Update CodeQL manual trigger workflow") \/
     getProp requestData "message"
     = Ok (VStr "Add CodeQL manual trigger workflow")).
Proof.
  intros w requestData.
  apply (pushWorkflow_put_payload w requestData).
  vm_compute. auto 6.
Defined.

(** X14.  How the script ends.  It returns only after a PUT that
    succeeded, and then with the data of the response to that PUT; a PUT
    that is refused (a conflict, say) is not repeated: the refusal ends the
    try block and the script leaves with code 1; and 1 is the only code
    the script ever leaves with. *)
Theorem pushWorkflow_ends (w : world) :
  (forall data,
     outcome w PushWorkflow.pushWorkflow = Returned data ->
     exists requestData response,
       last (trace w PushWorkflow.pushWorkflow) (EResolve "")
       = EPut requestData /\
       repos_createOrUpdateFileContents w requestData = Ok response /\
       getProp response "data" = Ok data) /\
  (forall requestData e,
     In (EPut requestData) (trace w PushWorkflow.pushWorkflow) ->
     repos_createOrUpdateFileContents w requestData = Throw e ->
     last (trace w PushWorkflow.pushWorkflow) (EResolve "")
     = EPut requestData /\
     outcome w PushWorkflow.pushWorkflow_try = Throw e /\
     outcome w PushWorkflow.pushWorkflow = Exited 1) /\
  (forall code,
     outcome w PushWorkflow.pushWorkflow = Exited code -> code = 1%N).
Proof.
  rewrite pushWorkflow_trace, pushWorkflow_outcome. unfold trace, outcome.
  rewrite pushWorkflow_try_run.
  destruct (fs_existsSync w _); simpl;
    [ | repeat split; intros; try discriminate; intuition congruence].
  destruct (fs_readFileSync w _) as [workflowContent | e0]; simpl;
    [ | repeat split; intros; try discriminate; intuition congruence].
  destruct (PushWorkflow.checkExisting _) as [existingFile | e0]; simpl;
    [ | repeat split; intros; try discriminate; intuition congruence].
  destruct (PushWorkflow.prepare _ _) as [rd | e0]; simpl;
    [ | repeat split; intros; try discriminate; intuition congruence].
  split; [ | split].
  - intros data H. exists rd.
    unfold PushWorkflow.finish in H.
    destruct (repos_createOrUpdateFileContents w rd) as [response | e];
      cbn [bind] in H; [ | discriminate].
    exists response. split; [reflexivity | ]. split; [reflexivity | ].
    destruct (getProp response "data") as [d | e]; cbn [bind] in H;
      [ | discriminate].
    destruct (getProp d "commit") as [commit | e]; cbn [bind] in H;
      [ | discriminate].
    destruct (getProp commit "html_url") as [url | e]; cbn [bind] in H;
      [ | discriminate].
    destruct (ToString url) as [t | e]; cbn [bind] in H; [ | discriminate].
    congruence.
  - intros requestData e Hin Hput.
    assert (rd = requestData) as -> by (intuition congruence).
    rewrite Hput. repeat split.
  - intros code H.
    destruct (PushWorkflow.finish _); congruence.
Qed.

Lemma pushWorkflow_conflict_example :
  let w := Fixtures2.world_with_conflict in
  (forall data,
     outcome w PushWorkflow.pushWorkflow = Returned data ->
     exists requestData response,
       last (trace w PushWorkflow.pushWorkflow) (EResolve "")
       = EPut requestData /\
       repos_createOrUpdateFileContents w requestData = Ok response /\
       getProp response "data" = Ok data) /\
  (forall requestData e,
     In (EPut requestData) (trace w PushWorkflow.pushWorkflow) ->
     repos_createOrUpdateFileContents w requestData = Throw e ->
     last (trace w PushWorkflow.pushWorkflow) (EResolve "")
     = EPut requestData /\
     outcome w PushWorkflow.pushWorkflow_try = Throw e /\
     outcome w PushWorkflow.pushWorkflow = Exited 1) /\
  (forall code,
     outcome w PushWorkflow.pushWorkflow = Exited code -> code = 1%N).
Proof.
  intros w. exact (pushWorkflow_ends w).
Defined.

(** ** The requests of the workflow manager *)

Lemma makeRequest_options_without_data GITHUB_TOKEN path method :
  let req :=
    WorkflowManager.makeRequest_options GITHUB_TOKEN path method None in
  hostname req = "api.github.com" /\
  port req = 443%N /\
  getField (headers req) "Authorization"
  = Some (VStr ("token " ++ GITHUB_TOKEN)) /\
  getField (headers req) "Accept"
  = Some (VStr "application/vnd.github.v3+json") /\
  written req = None /\
  Node.path req = path.
Proof.
  repeat split.
Qed.

(** X15.  Where the workflow manager sends the token.  Every request
    that any run of its command line makes goes to api.github.com, port
    443, under a path of the workflows of akhilesh1207/test-codeql, with
    the token in the Authorization header and the version 3 media type in
    Accept; it is a GET or a PUT and it has no body. *)
Theorem workflow_manager_requests
    (GITHUB_TOKEN : string) (JSON_parse : string -> option value)
    (w : world) (args : list string) (e : event) :
  In e (trace w (WorkflowManagerMain.main GITHUB_TOKEN JSON_parse args)) ->
  exists req,
    e = EHttps req /\
    hostname req = "api.github.com" /\
    port req = 443%N /\
    getField (headers req) "Authorization"
    = Some (VStr ("token " ++ GITHUB_TOKEN)) /\
    getField (headers req) "Accept"
    = Some (VStr "application/vnd.github.v3+json") /\
    written req = None /\
    (method req = "GET" \/ method req = "PUT") /\
    String.prefix "/repos/akhilesh1207/test-codeql/actions/workflows"
      (path req) = true.
Proof.
  unfold WorkflowManagerMain.main, trace.
  destruct (WorkflowManagerMain.given (nth_error args 0)) as [action | ];
    [ | intros []].
  assert (Hreq : forall pth mth,
            (mth = None \/ mth = Some "PUT") ->
            String.prefix "/repos/akhilesh1207/test-codeql/actions/workflows"
              pth = true ->
            In e [EHttps (WorkflowManager.makeRequest_options GITHUB_TOKEN
                            pth mth None)] ->
            exists req,
              e = EHttps req /\
              hostname req = "api.github.com" /\
              port req = 443%N /\
              getField (headers req) "Authorization"
              = Some (VStr ("token " ++ GITHUB_TOKEN)) /\
              getField (headers req) "Accept"
              = Some (VStr "application/vnd.github.v3+json") /\
              written req = None /\
              (method req = "GET" \/ method req = "PUT") /\
              String.prefix
                "/repos/akhilesh1207/test-codeql/actions/workflows"
                (path req) = true).
  { intros pth mth Hm Hp [<- | []].
    eexists. split; [reflexivity | ].
    destruct Hm as [-> | ->]; repeat split; auto. }
  assert (Hfile : forall operation suffix mth,
            (mth = None \/ mth = Some "PUT") ->
            (forall f,
               trace w (operation f) =
               [EHttps (WorkflowManager.makeRequest_options GITHUB_TOKEN
                          (WorkflowManager.workflow_path f suffix)
                          mth None)]) ->
            In e (fst (run w (WorkflowManagerMain.with_file
                                (nth_error args 1) operation))) ->
            exists req,
              e = EHttps req /\
              hostname req = "api.github.com" /\
              port req = 443%N /\
              getField (headers req) "Authorization"
              = Some (VStr ("token " ++ GITHUB_TOKEN)) /\
              getField (headers req) "Accept"
              = Some (VStr "application/vnd.github.v3+json") /\
              written req = None /\
              (method req = "GET" \/ method req = "PUT") /\
              String.prefix
                "/repos/akhilesh1207/test-codeql/actions/workflows"
                (path req) = true).
  { intros operation suffix mth Hm Hop.
    unfold WorkflowManagerMain.with_file.
    destruct (WorkflowManagerMain.given (nth_error args 1)) as [f | ];
      [ | intros []].
    rewrite run_pbind_Done. cbn [fst]. rewrite Hop.
    apply Hreq; [exact Hm | reflexivity]. }
  repeat match goal with
         | |- context [if ?c then _ else _] => destruct c
         end.
  - apply (Hfile _ "/disable" (Some "PUT")); [now right | ].
    intros f. unfold WorkflowManager.disableWorkflow.
    rewrite trace_pbind_Done. apply makeRequest_trace.
  - apply (Hfile _ "/enable" (Some "PUT")); [now right | ].
    intros f. unfold WorkflowManager.enableWorkflow.
    rewrite trace_pbind_Done. apply makeRequest_trace.
  - apply (Hfile _ "" None); [now left | ].
    intros f. unfold WorkflowManager.getWorkflowStatus.
    rewrite trace_pbind_Done. apply makeRequest_trace.
  - rewrite run_pbind_Done. cbn [fst].
    unfold WorkflowManager.listWorkflows.
    rewrite trace_pbind_Done, makeRequest_trace.
    apply Hreq; [now left | reflexivity].
  - intros [].
Qed.

Lemma workflow_manager_requests_example :
  let w := Fixtures.world_of (Fixtures.response 204 []) Fixtures.not_found in
  exists req,
    EHttps
      {| hostname := "api.github.com";
         port := 443;
         path :=
           "/repos/akhilesh1207/test-codeql/actions/workflows/codeql.yml/enable";
         method := "PUT";
         headers :=
           [("Authorization", VStr "token ghp_example");
            ("Accept", VStr "application/vnd.github.v3+json");
            ("User-Agent", VStr "Workflow-Manager/1.0.0")];
         written := None |} = EHttps req /\
    hostname req = "api.github.com" /\
    port req = 443%N /\
    getField (headers req) "Authorization"
    = Some (VStr ("token " ++ Fixtures.token)) /\
    getField (headers req) "Accept"
    = Some (VStr "application/vnd.github.v3+json") /\
    written req = None /\
    (method req = "GET" \/ method req = "PUT") /\
    String.prefix "/repos/akhilesh1207/test-codeql/actions/workflows"
      (path req) = true.
Proof.
  intros w.
  apply (workflow_manager_requests Fixtures.token parse_json w
           ["enable"; "codeql.yml"]).
  vm_compute. auto.
Defined.

(** ** trigger-codeql.js: the announced length on seven-bit arguments *)

Lemma all_ascii_app (a b : string) :
  all_ascii (a ++ b) = all_ascii a && all_ascii b.
Proof.
  induction a as [ | c r IH]; simpl; [reflexivity | ].
  now rewrite IH, andb_assoc.
Qed.

Lemma escape_ascii (c : ascii) :
  (N_of_ascii c <? 128)%N = true -> all_ascii (escape c) = true.
Proof.
  destruct c as [b0 b1 b2 b3 b4 b5 b6 b7].
  destruct b7; [intros H; vm_compute in H; destruct b0, b1, b2, b3, b4, b5, b6;
                discriminate | ].
  intros _.
  destruct b0, b1, b2, b3, b4, b5, b6; reflexivity.
Qed.

Lemma quote_ascii (t : string) :
  all_ascii t = true -> all_ascii (quote t) = true.
Proof.
  intros H. unfold quote.
  change (all_ascii (String dquote (escape_all t ++ String dquote "")))
    with (all_ascii (escape_all t ++ String dquote "")).
  rewrite all_ascii_app, andb_true_r.
  induction t as [ | c r IH]; [reflexivity | ].
  simpl in H. apply andb_prop in H as [Hc Hr].
  cbn [escape_all]. rewrite all_ascii_app, (escape_ascii c Hc). auto.
Qed.

Lemma stringify_plain (x d : value) :
  plain x -> plain d -> d <> VUndefined ->
  exists t,
    JSON_stringify (withDefault x d) = Some t /\ all_ascii t = true.
Proof.
  assert (H : forall y, plain y -> y <> VUndefined ->
                        exists t, JSON_stringify y = Some t /\
                                  all_ascii t = true).
  { intros y [-> | [[b ->] | (t & -> & Ht)]] Hy.
    - contradiction.
    - destruct b; simpl; eauto.
    - simpl. eauto using quote_ascii. }
  intros Hx Hd Hnd.
  destruct Hx as [-> | [[b ->] | (t & -> & Ht)]]; cbn [withDefault].
  - now apply H.
  - apply H; [right; left; eauto | discriminate].
  - apply H; [right; right; eauto | discriminate].
Qed.

Lemma stringify_dispatch_body ref languages queries upload tr tl tq :
  JSON_stringify ref = Some tr ->
  JSON_stringify languages = Some tl ->
  JSON_stringify queries = Some tq ->
  JSON_stringify
    (VObj [("ref", ref);
           ("inputs",
            VObj [("languages", languages); ("queries", queries);
                  ("upload_sarif", VStr upload)])])
  = Some ("{" ++
          join ","
            [quote "ref" ++ ":" ++ tr;
             quote "inputs" ++ ":" ++
             "{" ++
             join ","
               [quote "languages" ++ ":" ++ tl;
                quote "queries" ++ ":" ++ tq;
                quote "upload_sarif" ++ ":" ++ quote upload] ++ "}"]
          ++ "}").
Proof.
  intros Hr Hl Hq.
  cbn [JSON_stringify]. rewrite Hr, Hl, Hq. reflexivity.
Qed.

Lemma switch_key_plain options key value options' :
  TriggerCodeqlMain.switch_key options key value = Some options' ->
  plain value ->
  plain_options options -> plain_options options'.
Proof.
  unfold TriggerCodeqlMain.switch_key.
  intros H Hv (fields & -> & Hf).
  assert (Hset : forall name x,
            plain x -> plain_options (VObj (setField fields name x))).
  { intros name x Hx. eexists. split; [reflexivity | ].
    intros k y. destruct (String.eqb_spec name k) as [<- | NE].
    - rewrite getField_setField_same. intros E. now injection E as <-.
    - rewrite getField_setField_other by exact NE. apply Hf. }
  repeat match type of H with
         | context [String.eqb ?a ?b] => destruct (String.eqb a b)
         end;
    try discriminate; injection H as <-;
    try (apply Hset; first [exact Hv | right; left; eauto]).
  exists fields. auto.
Qed.

Lemma parse_plain args :
  Forall (fun a => all_ascii a = true) args ->
  forall options options',
    TriggerCodeqlMain.parse args options = Some options' ->
    plain_options options -> plain_options options'.
Proof.
  induction args as [ | key | key value rest IH] using pairs_ind;
    intros Hall options options' H Hp.
  - simpl in H. now injection H as <-.
  - simpl in H. eapply switch_key_plain; eauto. now left.
  - change (TriggerCodeqlMain.parse (key :: value :: rest) options)
      with (match TriggerCodeqlMain.switch_key options key (VStr value) with
            | Some o => TriggerCodeqlMain.parse rest o
            | None => None
            end) in H.
    destruct (TriggerCodeqlMain.switch_key options key (VStr value))
      as [o | ] eqn:E; [ | discriminate].
    inversion Hall as [ | ? ? _ Hall']. inversion Hall' as [ | ? ? Hv Hrest].
    subst.
    eapply (IH Hrest); eauto.
    eapply switch_key_plain; eauto. right. right. eauto.
Qed.

(** X16.  On seven-bit arguments the announced length is right.  When
    every argument of the command line is a text of seven-bit characters
    and the help is not asked for, the body that is written is seven-bit
    too and the Content-Length of the request is the number of bytes
    written. *)
Theorem trigger_content_length_right_on_ascii
    (GITHUB_TOKEN : string) (args : list string) (options : value) :
  Forall (fun a => all_ascii a = true) args ->
  TriggerCodeqlMain.parse args (VObj []) = Some options ->
  exists req data,
    TriggerCodeql.requestOptions GITHUB_TOKEN options = Ok req /\
    written req = Some data /\
    all_ascii data = true /\
    getField (headers req) "Content-Length"
    = Some (VNum (Z.of_nat (byteLength data))).
Proof.
  intros Hall Hp.
  destruct (parse_plain args Hall _ _ Hp) as (fields & -> & Hplain).
  { exists []. split; [reflexivity | discriminate]. }
  destruct (dispatchBody_from_command_line fields) as (b & _ & Hbody).
  { apply (parse_from_command_line _ _ _ Hp empty_from_command_line). }
  cbv zeta in Hbody.
  assert (Hsup : forall k,
            plain match getField fields k with
                  | Some x => x | None => VUndefined end).
  { intros k. destruct (getField fields k) as [x | ] eqn:E;
      [eapply Hplain; eauto | now left]. }
  destruct (stringify_plain _ (VStr "main") (Hsup "ref"))
    as (tr & Hr & Ar); [right; right; eauto | discriminate | ].
  destruct (stringify_plain _ (VStr "javascript-typescript,actions")
              (Hsup "languages"))
    as (tl & Hl & Al); [right; right; eauto | discriminate | ].
  destruct (stringify_plain _ (VStr "security-extended") (Hsup "queries"))
    as (tq & Hq & Aq); [right; right; eauto | discriminate | ].
  pose proof (stringify_dispatch_body _ _ _ (if b then "true" else "false")
                _ _ _ Hr Hl Hq) as Hs.
  destruct (requestOptions_of_body GITHUB_TOKEN _ _ Hbody)
    as (req & Hreq & _ & _ & _ & Hw & _).
  destruct (triggerWorkflow_content_length GITHUB_TOKEN _ _ Hreq)
    as (data & Hd & _ & Hlen).
  rewrite Hd, Hs in Hw. cbn [option_map] in Hw.
  assert (Ha : all_ascii data = true).
  { injection Hw as ->.
    repeat (cbn; rewrite ?all_ascii_app, ?Ar, ?Al, ?Aq).
    destruct b; reflexivity. }
  exists req, data. auto.
Qed.

Lemma trigger_content_length_example :
  let args := ["--languages"; "python"; "--upload-sarif"; "false"] in
  exists req data,
    TriggerCodeql.requestOptions Fixtures.token
      (VObj [("languages", VStr "python"); ("uploadSarif", VBool false)])
    = Ok req /\
    written req = Some data /\
    all_ascii data = true /\
    getField (headers req) "Content-Length"
    = Some (VNum (Z.of_nat (byteLength data))).
Proof.
  intros args.
  apply (trigger_content_length_right_on_ascii Fixtures.token args).
  - repeat constructor.
  - reflexivity.
Defined.
